(** * Savings Community backend: the ledger and activity-feed engine

    A shallow embedding of [main.py]: the four SQLite tables, the statements
    the request handlers execute on them, and the handlers themselves
    ([google_callback], [get_me], [get_dashboard], [get_feed],
    [get_leaderboard], [create_goal], [log_sacrifice]) and the start-up
    code ([init_db], [create_dummy_data]), followed by the properties of
    the engine.

    Conventions of the embedding.
    - A table is the list of its rows in rowid order (oldest first).
    - A [REAL] column holds an IEEE binary64 number or [NULL]; Python [float]
      is binary64 as well, so amounts are primitive floats.
    - [INTEGER] columns and Python [int] are [Z]; the 64-bit range of SQLite
      integers is not modelled (leaving it takes 2^63 inserts or calls).
    - [created_at] is the text written by [CURRENT_TIMESTAMP]
      (["YYYY-MM-DD HH:MM:SS"], compared byte by byte); the value of the
      clock is an input of each handler.
    - The identity of the caller ([get_current_user]) is resolved before a
      handler runs: a handler receives the [user_id] of a valid token.
    - [event_data] is the dictionary that [json.dumps] serialises and
      [json.loads] reads back, kept in structured form. *)

From Stdlib Require Import ZArith List String Bool Lia Floats.
From Stdlib Require Import Permutation Sorted.
From Stdlib Require OrderedTypeEx.
Import ListNotations.

Local Open Scope string_scope.
Local Open Scope Z_scope.

(** ** SQLite values *)

Module Sql.

(** A [REAL] cell: [None] is [NULL]. *)
Definition real := option float.

(** Writing a double into a cell.  SQLite has no NaN: a NaN that is bound
    to a parameter or that an expression produces becomes [NULL].  A
    column of numeric affinity keeps an integral double as an integer and
    reads it back as a double, which maps both zeros to [0.0]. *)
Definition to_real (f : float) : real :=
  if PrimFloat.is_nan f then None
  else if (0 =? f)%float then Some 0%float
  else Some f.

(** [a + b] on [REAL] operands: [NULL] is absorbing. *)
Definition real_add (a b : real) : real :=
  match a, b with
  | Some x, Some y => to_real (x + y)%float
  | _, _ => None
  end.

(** The comparison of the sorter on [REAL] keys: [NULL] sorts below every
    number, numbers by [<] on doubles. *)
Definition real_ltb (a b : real) : bool :=
  match a, b with
  | None, None => false
  | None, Some _ => true
  | Some _, None => false
  | Some x, Some y => (x <? y)%float
  end.

(** [AUTOINCREMENT]: one more than the largest rowid of the table (no row
    is ever deleted, so this is also the largest rowid ever used). *)
Definition next_rowid (ids : list Z) : Z := 1 + fold_right Z.max 0 ids.

End Sql.
Import Sql.

(** ** Rows and the database *)

Record User := mkUser {
  u_id : Z;
  u_email : string;
  u_name : option string;
  u_avatar_url : option string;
  u_google_sub : string;
  u_total_saved : real;
  u_current_streak : Z;
  u_last_save_date : option string;
  u_created_at : string
}.

Record Goal := mkGoal {
  g_id : Z;
  g_user_id : Z;
  g_title : string;
  g_target_amount : float;
  g_current_amount : real;
  g_category : string;
  g_created_at : string
}.

Record Sacrifice := mkSacrifice {
  s_id : Z;
  s_user_id : Z;
  s_title : string;
  s_amount : float;
  s_days_count : Z;
  s_last_done_date : option string;
  s_created_at : string
}.

(** The two literals written into [feed_events.event_type]. *)
Inductive EventType := goal_created | sacrifice_logged.

(** The dictionaries serialised into [feed_events.event_data]. *)
Inductive EventData :=
| GoalData (goal_id : Z) (title : string)
| SacrificeData (sacrifice_id : Z) (title : string) (days : Z).

Record FeedEvent := mkFeedEvent {
  f_id : Z;
  f_user_id : Z;
  f_event_type : EventType;
  f_event_data : EventData;
  f_created_at : string
}.

Record DB := mkDB {
  users : list User;
  goals : list Goal;
  sacrifices : list Sacrifice;
  feed_events : list FeedEvent
}.

(** What a handler reads from the outside world while it runs. *)
Record Clock := mkClock {
  current_timestamp : string;   (* SQLite's CURRENT_TIMESTAMP *)
  now_isoformat : string        (* datetime.now().isoformat() *)
}.

(** ** Request bodies (the pydantic models) *)

Record GoalCreate := mkGoalCreate {
  gc_title : string;
  gc_target_amount : float;
  gc_category : string
}.

Definition default_category : string := "General".

Record SacrificeCreate := mkSacrificeCreate {
  sc_title : string;
  sc_amount : float
}.

(** The fields [google_callback] reads from Google's userinfo answer:
    [info["sub"]], and [info.get(...)] for the others. *)
Record UserInfo := mkUserInfo {
  ui_sub : string;
  ui_email : option string;
  ui_name : option string;
  ui_picture : option string
}.

(** ** Connections and transactions *)

Inductive Exn :=
| IntegrityError              (* sqlite3.IntegrityError: a NOT NULL column got NULL *)
| TypeError                   (* dict(None) *)
| HTTPException (status : Z) (detail : string).

Inductive result (A : Type) :=
| Ok (a : A)
| Err (e : Exn).
Arguments Ok {A} a.
Arguments Err {A} e.

Module Tx.

(** An open connection: what is on disk, and what the connection sees
    (the disk plus the writes of its open transaction). *)
Record Conn := mkConn { disk : DB; view : DB }.

(** Code that runs inside [with get_db() as conn]. *)
Definition Tx (A : Type) := Conn -> result (A * Conn).

Definition ret {A} (a : A) : Tx A := fun c => Ok (a, c).

Definition bind {A B} (m : Tx A) (k : A -> Tx B) : Tx B :=
  fun c => match m c with
           | Ok (a, c') => k a c'
           | Err e => Err e
           end.

Definition raise {A} (e : Exn) : Tx A := fun _ => Err e.

(** A [SELECT]. *)
Definition query {A} (q : DB -> A) : Tx A := fun c => Ok (q (view c), c).

(** An [INSERT] or [UPDATE] that passes its constraints. *)
Definition write (w : DB -> DB) : Tx unit :=
  fun c => Ok (tt, mkConn (disk c) (w (view c))).

(** [conn.commit()]. *)
Definition commit : Tx unit := fun c => Ok (tt, mkConn (view c) (view c)).

(** [with get_db() as conn: body]: open a connection on the database, run
    the body, close the connection.  Closing drops what was not
    committed, also when the body raised. *)
Definition get_db {A} (body : Tx A) (db : DB) : result A * DB :=
  match body (mkConn db db) with
  | Ok (a, c) => (Ok a, disk c)
  | Err e => (Err e, db)
  end.

End Tx.
Import Tx.

Declare Scope tx_scope.
Delimit Scope tx_scope with tx.
Notation "x <- m ;; k" := (bind m (fun x => k))
  (at level 61, m at next level, right associativity) : tx_scope.
Notation "' p <- m ;; k" := (bind m (fun p => k))
  (at level 61, p pattern, m at next level, right associativity) : tx_scope.
Notation "m ;; k" := (bind m (fun _ => k))
  (at level 61, right associativity) : tx_scope.
Local Open Scope tx_scope.

(** ** The statements the handlers execute *)

Definition set_users (db : DB) (us : list User) : DB :=
  mkDB us (goals db) (sacrifices db) (feed_events db).
Definition set_goals (db : DB) (gs : list Goal) : DB :=
  mkDB (users db) gs (sacrifices db) (feed_events db).
Definition set_sacrifices (db : DB) (ss : list Sacrifice) : DB :=
  mkDB (users db) (goals db) ss (feed_events db).
Definition set_feed_events (db : DB) (fs : list FeedEvent) : DB :=
  mkDB (users db) (goals db) (sacrifices db) fs.

(** [SELECT * FROM users WHERE id = ?] followed by [fetchone()]. *)
Definition user_by_id (user_id : Z) (db : DB) : option User :=
  find (fun u => u_id u =? user_id) (users db).

(** [SELECT * FROM sacrifices WHERE user_id = ? AND title = ?] followed by
    [fetchone()]: the first matching row of the table scan. *)
Definition sacrifice_by_title (user_id : Z) (title : string) (db : DB)
  : option Sacrifice :=
  find (fun s => (s_user_id s =? user_id) && (s_title s =? title)%string)
       (sacrifices db).

(** [INSERT INTO goals (user_id, title, target_amount, category)]:
    [target_amount] is [NOT NULL]; [current_amount] and [created_at] take
    their defaults.  Yields [lastrowid]. *)
Definition insert_goal (clk : Clock) (user_id : Z) (title : string)
    (target_amount : float) (category : string) : Tx Z :=
  match to_real target_amount with
  | None => raise IntegrityError
  | Some target =>
      rowid <- query (fun db => next_rowid (map g_id (goals db))) ;;
      write (fun db => set_goals db (goals db ++
        [mkGoal rowid user_id title target (Some 0%float) category
                (current_timestamp clk)])) ;;
      ret rowid
  end.

(** [INSERT INTO feed_events (user_id, event_type, event_data)]. *)
Definition insert_feed_event (clk : Clock) (user_id : Z) (event_type : EventType)
    (event_data : EventData) : Tx Z :=
  rowid <- query (fun db => next_rowid (map f_id (feed_events db))) ;;
  write (fun db => set_feed_events db (feed_events db ++
    [mkFeedEvent rowid user_id event_type event_data (current_timestamp clk)])) ;;
  ret rowid.

(** [INSERT INTO sacrifices (user_id, title, amount, last_done_date)]:
    [amount] is [NOT NULL]; [days_count] defaults to 1. *)
Definition insert_sacrifice (clk : Clock) (user_id : Z) (title : string)
    (amount : float) : Tx Z :=
  match to_real amount with
  | None => raise IntegrityError
  | Some a =>
      rowid <- query (fun db => next_rowid (map s_id (sacrifices db))) ;;
      write (fun db => set_sacrifices db (sacrifices db ++
        [mkSacrifice rowid user_id title a 1 (Some (now_isoformat clk))
                     (current_timestamp clk)])) ;;
      ret rowid
  end.

Definition set_days (new_days : Z) (last_done : string) (s : Sacrifice)
  : Sacrifice :=
  mkSacrifice (s_id s) (s_user_id s) (s_title s) (s_amount s) new_days
              (Some last_done) (s_created_at s).

(** [UPDATE sacrifices SET days_count = ?, last_done_date = ? WHERE id = ?]. *)
Definition update_sacrifice (new_days : Z) (last_done : string) (id : Z)
  : Tx unit :=
  write (fun db => set_sacrifices db
    (map (fun s => if s_id s =? id then set_days new_days last_done s else s)
         (sacrifices db))).

Definition credit (amount : float) (u : User) : User :=
  mkUser (u_id u) (u_email u) (u_name u) (u_avatar_url u) (u_google_sub u)
         (real_add (u_total_saved u) (to_real amount))
         (u_current_streak u + 1)
         (u_last_save_date u) (u_created_at u).

(** [UPDATE users SET total_saved = total_saved + ?,
    current_streak = current_streak + 1 WHERE id = ?]. *)
Definition update_user (amount : float) (user_id : Z) : Tx unit :=
  write (fun db => set_users db
    (map (fun u => if u_id u =? user_id then credit amount u else u)
         (users db))).

(** [SELECT * FROM users WHERE google_sub = ?] followed by [fetchone()]. *)
Definition user_by_sub (sub : string) (db : DB) : option User :=
  find (fun u => (u_google_sub u =? sub)%string) (users db).

(** [INSERT INTO users (email, name, avatar_url, google_sub)]: [email] is
    [UNIQUE NOT NULL], [google_sub] is [UNIQUE NOT NULL]; [total_saved] and
    [current_streak] default to 0. *)
Definition insert_user (clk : Clock) (info : UserInfo) : Tx Z :=
  match ui_email info with
  | None => raise IntegrityError
  | Some email =>
      taken <- query (fun db =>
        existsb (fun u => (u_email u =? email)%string
                          || (u_google_sub u =? ui_sub info)%string)
                (users db)) ;;
      if taken : bool then raise IntegrityError
      else
        rowid <- query (fun db => next_rowid (map u_id (users db))) ;;
        write (fun db => set_users db (users db ++
          [mkUser rowid email (ui_name info) (ui_picture info) (ui_sub info)
                  (Some 0%float) 0 None (current_timestamp clk)])) ;;
        ret rowid
  end.

(** ** The mutating handlers *)

(** [GET /auth/google/callback], from the point where Google's answer
    [info] is at hand: find the account of the subject or create it.
    Yields the id the session token is issued for. *)
Definition google_callback (clk : Clock) (info : UserInfo)
  : DB -> result Z * DB :=
  get_db (
    user <- query (user_by_sub (ui_sub info)) ;;
    match user with
    | None =>
        rowid <- insert_user clk info ;;
        commit ;;
        ret rowid
    | Some u => ret (u_id u)
    end).

Record GoalCreated := mkGoalCreated { gr_id : Z; gr_title : string }.

Record SacrificeLogged := mkSacrificeLogged { lr_message : string; lr_days : Z }.

(** [POST /api/goals]. *)
Definition create_goal (clk : Clock) (goal : GoalCreate) (user_id : Z)
  : DB -> result GoalCreated * DB :=
  get_db (
    goal_id <- insert_goal clk user_id (gc_title goal) (gc_target_amount goal)
                           (gc_category goal) ;;
    (* Add to feed *)
    insert_feed_event clk user_id goal_created
                      (GoalData goal_id (gc_title goal)) ;;
    commit ;;
    ret (mkGoalCreated goal_id (gc_title goal))).

(** [POST /api/sacrifices]. *)
Definition log_sacrifice (clk : Clock) (sacrifice : SacrificeCreate) (user_id : Z)
  : DB -> result SacrificeLogged * DB :=
  get_db (
    (* Check if sacrifice exists *)
    existing <- query (sacrifice_by_title user_id (sc_title sacrifice)) ;;
    '(sacrifice_id, new_days) <-
      match existing with
      | Some row =>
          (* Update days count *)
          let new_days := s_days_count row + 1 in
          update_sacrifice new_days (now_isoformat clk) (s_id row) ;;
          ret (s_id row, new_days)
      | None =>
          (* Create new *)
          rowid <- insert_sacrifice clk user_id (sc_title sacrifice)
                                    (sc_amount sacrifice) ;;
          ret (rowid, 1)
      end ;;
    (* Update user total saved and streak *)
    update_user (sc_amount sacrifice) user_id ;;
    (* Add to feed *)
    insert_feed_event clk user_id sacrifice_logged
                      (SacrificeData sacrifice_id (sc_title sacrifice) new_days) ;;
    commit ;;
    ret (mkSacrificeLogged "Sacrifice logged" new_days)).

(** ** The read handlers *)

(** [GET /api/me]. *)
Definition get_me (user_id : Z) : DB -> result User * DB :=
  get_db (
    user <- query (user_by_id user_id) ;;
    match user with
    | None => raise (HTTPException 404 "User not found")
    | Some u => ret u
    end).

(** ** [ORDER BY ... DESC] and [LIMIT] *)

Section OrderBy.

Context {A : Type}.

(** [below a b]: the sort key of row [a] is smaller than that of [b]. *)
Variable below : A -> A -> bool.

(** Two rows in the order a descending sort may emit them. *)
Definition desc (a b : A) : Prop := below a b = false.

(** The rows a [SELECT ... ORDER BY key DESC] may return: the selected
    rows, each once, no row followed by one of a larger key.  SQLite
    leaves the order of rows with equal keys undefined, and so does this
    relation. *)
Definition order_by_desc (rows out : list A) : Prop :=
  Permutation rows out /\ Sorted desc out.

(** One sorter that meets it: insertion sort, keeping rows with equal
    keys in the order of the table scan. *)
Fixpoint insert_desc (x : A) (l : list A) : list A :=
  match l with
  | [] => [x]
  | y :: l' => if below x y then y :: insert_desc x l' else x :: l
  end.

Definition sort_desc (rows : list A) : list A :=
  fold_right insert_desc [] rows.

End OrderBy.

(** [LIMIT n]. *)
Definition limit {A} (n : nat) (rows : list A) : list A := firstn n rows.

Definition user_below (a b : User) : bool :=
  real_ltb (u_total_saved a) (u_total_saved b).
Definition goal_below (a b : Goal) : bool :=
  String.ltb (g_created_at a) (g_created_at b).
Definition sacrifice_below (a b : Sacrifice) : bool :=
  String.ltb (s_created_at a) (s_created_at b).

(** ** The read handlers with an [ORDER BY] *)

Record Dashboard := mkDashboard {
  d_user : User;
  d_goals : list Goal;
  d_sacrifices : list Sacrifice
}.

(** [GET /api/dashboard]: the responses the handler may give.  [dict] of
    the [None] that [fetchone()] yields for a missing row raises
    [TypeError], before the other two queries run. *)
Inductive get_dashboard (user_id : Z) (db : DB) : result Dashboard -> Prop :=
| dashboard_no_row :
    user_by_id user_id db = None ->
    get_dashboard user_id db (Err TypeError)
| dashboard_row user goals_sorted sacrifices_sorted :
    user_by_id user_id db = Some user ->
    order_by_desc goal_below
      (filter (fun g => g_user_id g =? user_id) (goals db)) goals_sorted ->
    order_by_desc sacrifice_below
      (filter (fun s => s_user_id s =? user_id) (sacrifices db))
      sacrifices_sorted ->
    get_dashboard user_id db
      (Ok (mkDashboard user goals_sorted (limit 5 sacrifices_sorted))).

(** A row of [SELECT f.*, u.name, u.avatar_url]. *)
Record FeedRow := mkFeedRow {
  fr_event : FeedEvent;
  fr_name : option string;
  fr_avatar_url : option string
}.

(** [feed_events f JOIN users u ON f.user_id = u.id]. *)
Definition feed_join (db : DB) : list FeedRow :=
  flat_map (fun f =>
    map (fun u => mkFeedRow f (u_name u) (u_avatar_url u))
        (filter (fun u => u_id u =? f_user_id f) (users db)))
    (feed_events db).

Definition feed_below (a b : FeedRow) : bool :=
  String.ltb (f_created_at (fr_event a)) (f_created_at (fr_event b)).

(** [GET /api/feed]: the lists the handler may return. *)
Definition get_feed (db : DB) (events : list FeedRow) : Prop :=
  exists sorted,
    order_by_desc feed_below (feed_join db) sorted /\
    events = limit 20 sorted.

(** A row of [SELECT id, name, avatar_url, total_saved, current_streak]. *)
Record LeaderboardRow := mkLeaderboardRow {
  lb_id : Z;
  lb_name : option string;
  lb_avatar_url : option string;
  lb_total_saved : real;
  lb_current_streak : Z
}.

Definition leaderboard_row (u : User) : LeaderboardRow :=
  mkLeaderboardRow (u_id u) (u_name u) (u_avatar_url u) (u_total_saved u)
                   (u_current_streak u).

(** [GET /api/leaderboard] by the text of its query, which names one sort
    key: the lists [ORDER BY total_saved DESC LIMIT 10] allows. *)
Definition get_leaderboard (db : DB) (rows : list LeaderboardRow) : Prop :=
  exists sorted,
    order_by_desc user_below (users db) sorted /\
    rows = map leaderboard_row (limit 10 sorted).

(** [GET /api/leaderboard] as SQLite evaluates it.  The scan of [users]
    delivers the rows in rowid order, and the sorter puts a row behind the
    rows of the same key that were delivered before it: among accounts
    with the same total saved the one with the smaller [id] comes first,
    on every call.  [sort_desc] is that sorter. *)
Definition get_leaderboard_rows (db : DB) : list LeaderboardRow :=
  map leaderboard_row (limit 10 (sort_desc user_below (users db))).

(** ** Sequences of requests *)

Inductive Request :=
| Login (info : UserInfo)
| CreateGoal (goal : GoalCreate) (user_id : Z)
| LogSacrifice (sacrifice : SacrificeCreate) (user_id : Z).

Definition succeeded {A} (r : result A) : bool :=
  match r with Ok _ => true | Err _ => false end.

(** One mutating request served at clock value [clk]: whether it succeeded,
    and the database it leaves. *)
Definition handle (clk : Clock) (req : Request) (db : DB) : bool * DB :=
  match req with
  | Login info =>
      let (r, db') := google_callback clk info db in (succeeded r, db')
  | CreateGoal goal user_id =>
      let (r, db') := create_goal clk goal user_id db in (succeeded r, db')
  | LogSacrifice sacrifice user_id =>
      let (r, db') := log_sacrifice clk sacrifice user_id db in (succeeded r, db')
  end.

(** The database after a sequence of requests, served one after the other. *)
Fixpoint serve (reqs : list (Clock * Request)) (db : DB) : DB :=
  match reqs with
  | [] => db
  | (clk, req) :: rest => serve rest (snd (handle clk req db))
  end.

(** The [amount] arguments of the successful [log_sacrifice] calls of
    [user_id] in a sequence of requests served from [db], in call order. *)
Fixpoint logged_amounts (user_id : Z) (reqs : list (Clock * Request)) (db : DB)
  : list float :=
  match reqs with
  | [] => []
  | (clk, req) :: rest =>
      let (ok, db') := handle clk req db in
      match req with
      | LogSacrifice sacrifice uid =>
          if ok && (uid =? user_id)
          then sc_amount sacrifice :: logged_amounts user_id rest db'
          else logged_amounts user_id rest db'
      | _ => logged_amounts user_id rest db'
      end
  end.

(** A sequence of [log_sacrifice] calls of one account, as requests. *)
Definition logs_of (user_id : Z) (calls : list (Clock * SacrificeCreate))
  : list (Clock * Request) :=
  map (fun c => (fst c, LogSacrifice (snd c) user_id)) calls.

(** Every request of the sequence succeeds when served from [db]. *)
Fixpoint all_succeed (reqs : list (Clock * Request)) (db : DB) : bool :=
  match reqs with
  | [] => true
  | (clk, req) :: rest =>
      fst (handle clk req db) && all_succeed rest (snd (handle clk req db))
  end.

(** The sum of a list of amounts as the [UPDATE] of [log_sacrifice]
    accumulates it: [REAL] addition, in call order. *)
Definition sum_from (start : real) (amounts : list float) : real :=
  fold_left (fun acc a => real_add acc (to_real a)) amounts start.

Definition sum_amounts (amounts : list float) : real :=
  sum_from (Some 0%float) amounts.

(** The row of an account after one request: credited when the request is
    a successful [log_sacrifice] of that account, untouched otherwise. *)
Definition user_after (clk : Clock) (req : Request) (db : DB) (user_id : Z)
    (u : User) : User :=
  match req with
  | LogSacrifice sacrifice uid =>
      if fst (handle clk req db) && (uid =? user_id)
      then credit (sc_amount sacrifice) u else u
  | _ => u
  end.

(** ** The rows and tables the mutating handlers write *)

Definition goal_row (clk : Clock) (goal : GoalCreate) (user_id : Z)
    (target : float) (db : DB) : Goal :=
  mkGoal (next_rowid (map g_id (goals db))) user_id (gc_title goal) target
         (Some 0%float) (gc_category goal) (current_timestamp clk).

Definition goal_event (clk : Clock) (goal : GoalCreate) (user_id : Z) (db : DB)
  : FeedEvent :=
  mkFeedEvent (next_rowid (map f_id (feed_events db))) user_id goal_created
    (GoalData (next_rowid (map g_id (goals db))) (gc_title goal))
    (current_timestamp clk).

Definition user_row (clk : Clock) (info : UserInfo) (email : string) (db : DB)
  : User :=
  mkUser (next_rowid (map u_id (users db))) email (ui_name info)
         (ui_picture info) (ui_sub info) (Some 0%float) 0 None
         (current_timestamp clk).

Definition credit_users (amount : float) (user_id : Z) (us : list User)
  : list User :=
  map (fun u => if u_id u =? user_id then credit amount u else u) us.

Definition sacrifice_event (clk : Clock) (sacrifice : SacrificeCreate)
    (user_id sacrifice_id days : Z) (db : DB) : FeedEvent :=
  mkFeedEvent (next_rowid (map f_id (feed_events db))) user_id sacrifice_logged
    (SacrificeData sacrifice_id (sc_title sacrifice) days)
    (current_timestamp clk).

Definition sacrifice_row (clk : Clock) (sacrifice : SacrificeCreate)
    (user_id : Z) (amount : float) (db : DB) : Sacrifice :=
  mkSacrifice (next_rowid (map s_id (sacrifices db))) user_id
    (sc_title sacrifice) amount 1 (Some (now_isoformat clk))
    (current_timestamp clk).

(** ** Sample data *)

Definition at_time (t : string) : Clock := mkClock t t.

Definition alice : User :=
  mkUser 1 "alice@example.com" (Some "Alice") None "sub-alice"
         (Some 0%float) 0 None "2024-05-01 08:00:00".

Definition bob : User :=
  mkUser 2 "bob@example.com" (Some "Bob") (Some "https://example.com/bob.png")
         "sub-bob" (Some 0%float) 0 None "2024-05-01 08:30:00".

(** Two accounts that have not logged anything yet. *)
Definition fresh_db : DB := mkDB [alice; bob] [] [] [].

(** The example of the specification (two logs of one title with different
    amounts), with a goal, a first login, a log of another account and a
    rejected log in between. *)
Definition coffee_requests : list (Clock * Request) :=
  [ (at_time "2024-05-02 07:00:00",
     LogSacrifice (mkSacrificeCreate "Skipped Coffee" 4.5%float) 1);
    (at_time "2024-05-02 07:05:00",
     CreateGoal (mkGoalCreate "Bike" 300%float default_category) 1);
    (at_time "2024-05-02 07:08:00",
     Login (mkUserInfo "sub-carol" (Some "carol@example.com") (Some "Carol") None));
    (at_time "2024-05-02 07:10:00",
     LogSacrifice (mkSacrificeCreate "No Takeout" 15%float) 2);
    (at_time "2024-05-02 07:15:00",
     LogSacrifice (mkSacrificeCreate "Not a number" nan) 1);
    (at_time "2024-05-03 07:00:00",
     LogSacrifice (mkSacrificeCreate "Skipped Coffee" 5%float) 1) ].

(** The database after the requests above: alice has saved 9.5. *)
Definition coffee_db : DB := serve coffee_requests fresh_db.

(** A log with a negative amount. *)
Definition refund : SacrificeCreate := mkSacrificeCreate "Refund" (-5)%float.

(** A third log of alice's coffee, with yet another amount. *)
Definition coffee_again : SacrificeCreate :=
  mkSacrificeCreate "Skipped Coffee" 7%float.

(** A title alice has not logged before. *)
Definition packed_lunch : SacrificeCreate :=
  mkSacrificeCreate "Packed Lunch" 9.5%float.

(** Two goals created within one second: their feed events carry the same
    [created_at]. *)
Definition same_second_requests : list (Clock * Request) :=
  [ (at_time "2024-05-02 07:00:00",
     CreateGoal (mkGoalCreate "Bike" 300%float default_category) 1);
    (at_time "2024-05-02 07:00:00",
     CreateGoal (mkGoalCreate "Laptop" 800%float "Technology") 2) ].

Definition same_second_db : DB := serve same_second_requests fresh_db.

(** [a] was created strictly later than [b]. *)
Definition newer (a b : FeedRow) : Prop :=
  String.ltb (f_created_at (fr_event b)) (f_created_at (fr_event a)) = true.

(** Two leaderboard rows in non-increasing order of total saved: the first
    has not saved less than the second. *)
Definition not_poorer (a b : LeaderboardRow) : Prop :=
  real_ltb (lb_total_saved a) (lb_total_saved b) = false.

(** Row [a] goes before row [b] on the leaderboard: [a] has not saved
    less than [b], and has saved more or has the smaller [id]. *)
Definition ranked_before (a b : LeaderboardRow) : Prop :=
  real_ltb (lb_total_saved a) (lb_total_saved b) = false /\
  (real_ltb (lb_total_saved b) (lb_total_saved a) = true \/ lb_id a < lb_id b).

Definition user_ranked_before (a b : User) : Prop :=
  ranked_before (leaderboard_row a) (leaderboard_row b).

(** The rows of [users] lie in rowid order: a table is the list of its
    rows as a scan delivers them. *)
Definition ids_ascending (db : DB) : Prop :=
  StronglySorted Z.lt (map u_id (users db)).

(** Three accounts with the same total saved, the table not in the order
    of any other column. *)
Definition zoe : User :=
  mkUser 3 "zoe@example.com" (Some "Zoe") None "sub-zoe"
         (Some 9.5%float) 4 None "2024-05-01 09:00:00".

Definition adam : User :=
  mkUser 5 "adam@example.com" (Some "Adam") None "sub-adam"
         (Some 9.5%float) 1 None "2024-05-01 09:30:00".

Definition mia : User :=
  mkUser 8 "mia@example.com" (Some "Mia") None "sub-mia"
         (Some 20%float) 2 None "2024-05-01 10:00:00".

Definition tied_db : DB := mkDB [alice; zoe; adam; mia] [] [] [].

(** What identifies a sacrifice row and what it stores for good. *)
Definition sacrifice_key (s : Sacrifice) : Z * Z * string * float * string :=
  (s_id s, s_user_id s, s_title s, s_amount s, s_created_at s).

(** Three logs of alice, two of them under the same title. *)
Definition alice_calls : list (Clock * SacrificeCreate) :=
  [ (at_time "2024-05-02 07:00:00", mkSacrificeCreate "Skipped Coffee" 4.5%float);
    (at_time "2024-05-02 12:00:00", mkSacrificeCreate "Packed Lunch" 9.5%float);
    (at_time "2024-05-03 07:00:00", mkSacrificeCreate "Skipped Coffee" 5%float) ].

(** Decimal amounts are read as the nearest double, as Python reads
    them. *)
#[export] Set Warnings "-inexact-float".

(** Three logs of 0.1, 0.2 and 0.3, and the same three logs the other
    way round. *)
Definition dimes : list (Clock * SacrificeCreate) :=
  [ (at_time "2024-05-02 07:00:00", mkSacrificeCreate "Gum" 0.1%float);
    (at_time "2024-05-02 12:00:00", mkSacrificeCreate "Mint" 0.2%float);
    (at_time "2024-05-03 07:00:00", mkSacrificeCreate "Candy" 0.3%float) ].

Definition dimes_reordered : list (Clock * SacrificeCreate) :=
  [ (at_time "2024-05-03 07:00:00", mkSacrificeCreate "Candy" 0.3%float);
    (at_time "2024-05-02 12:00:00", mkSacrificeCreate "Mint" 0.2%float);
    (at_time "2024-05-02 07:00:00", mkSacrificeCreate "Gum" 0.1%float) ].

(** Two large savings and two large withdrawals, and the same four logs
    with savings and withdrawals taking turns. *)
Definition fortunes : list (Clock * SacrificeCreate) :=
  [ (at_time "2024-05-02 07:00:00", mkSacrificeCreate "Estate" 1e308%float);
    (at_time "2024-05-02 08:00:00", mkSacrificeCreate "Yacht" 1e308%float);
    (at_time "2024-05-02 09:00:00", mkSacrificeCreate "Tax" (-1e308)%float);
    (at_time "2024-05-02 10:00:00", mkSacrificeCreate "Fee" (-1e308)%float) ].

Definition fortunes_reordered : list (Clock * SacrificeCreate) :=
  [ (at_time "2024-05-02 07:00:00", mkSacrificeCreate "Estate" 1e308%float);
    (at_time "2024-05-02 09:00:00", mkSacrificeCreate "Tax" (-1e308)%float);
    (at_time "2024-05-02 08:00:00", mkSacrificeCreate "Yacht" 1e308%float);
    (at_time "2024-05-02 10:00:00", mkSacrificeCreate "Fee" (-1e308)%float) ].

(** ** Consistency of the tables *)

(** The primary keys of each table are pairwise distinct. *)
Definition ids_unique (db : DB) : Prop :=
  NoDup (map u_id (users db)) /\
  NoDup (map g_id (goals db)) /\
  NoDup (map s_id (sacrifices db)) /\
  NoDup (map f_id (feed_events db)).

Definition owner_and_title (s : Sacrifice) : Z * string :=
  (s_user_id s, s_title s).

(** An account has at most one sacrifice row per title. *)
Definition titles_unique (db : DB) : Prop :=
  NoDup (map owner_and_title (sacrifices db)).

(** No two accounts share a Google subject or an email address. *)
Definition accounts_unique (db : DB) : Prop :=
  NoDup (map u_google_sub (users db)) /\ NoDup (map u_email (users db)).

(** The payload of a feed event names a row that exists, with the title
    and the owner the event carries; a [sacrifice_logged] event reports a
    repetition count the row has reached. *)
Definition event_refers (db : DB) (ev : FeedEvent) : Prop :=
  match f_event_data ev with
  | GoalData goal_id title =>
      f_event_type ev = goal_created /\
      exists g, In g (goals db) /\ g_id g = goal_id /\ g_title g = title /\
                g_user_id g = f_user_id ev
  | SacrificeData sacrifice_id title days =>
      f_event_type ev = sacrifice_logged /\
      exists s, In s (sacrifices db) /\ s_id s = sacrifice_id /\
                s_title s = title /\ s_user_id s = f_user_id ev /\
                days <= s_days_count s
  end.

Definition feed_refers (db : DB) : Prop :=
  Forall (event_refers db) (feed_events db).

(** The repetition counts of the sacrifices of an account, added up. *)
Definition days_total (user_id : Z) (db : DB) : Z :=
  fold_right Z.add 0
    (map s_days_count
         (filter (fun s => s_user_id s =? user_id) (sacrifices db))).

(** Rows a request leaves in place: every goal stays, and every sacrifice
    keeps its id, title and owner and does not lose repetitions. *)
Definition rows_kept (db db' : DB) : Prop :=
  (forall g, In g (goals db) -> In g (goals db')) /\
  (forall s, In s (sacrifices db) ->
     exists s', In s' (sacrifices db') /\ s_id s' = s_id s /\
                s_title s' = s_title s /\ s_user_id s' = s_user_id s /\
                s_days_count s <= s_days_count s').

(** A [REAL] cell never holds a NaN. *)
Definition real_valid (r : real) : bool :=
  match r with
  | Some f => negb (PrimFloat.is_nan f)
  | None => true
  end.

Definition totals_valid (db : DB) : Prop :=
  Forall (fun u => real_valid (u_total_saved u) = true) (users db).

(** The account a request acts for, when it carries a session token. *)
Definition requester (req : Request) : option Z :=
  match req with
  | Login _ => None
  | CreateGoal _ user_id => Some user_id
  | LogSacrifice _ user_id => Some user_id
  end.

(** ** Schema bootstrap and demo data *)

(** The statements of [create_dummy_data] run one after the other, each
    reading the clock for itself: [seed_timestamp t i] is the
    [CURRENT_TIMESTAMP] of the [i]-th insert into table [t], and
    [seed_isoformat i] the [i]-th [datetime.now().isoformat()]. *)
Inductive SeedTable :=
| SeedUsers | SeedGoals | SeedSacrifices | SeedGoalEvents | SeedSacrificeEvents.

Record SeedClock := mkSeedClock {
  seed_timestamp : SeedTable -> nat -> string;
  seed_isoformat : nat -> string
}.

(** A [for] loop over a list, with the position of each element. *)
Fixpoint for_each {A} (body : nat -> A -> Tx unit) (i : nat) (l : list A)
  : Tx unit :=
  match l with
  | [] => ret tt
  | x :: rest => body i x ;; for_each body (S i) rest
  end.

(** The rows of the [users], [goals] and [sacrifices] lists of
    [create_dummy_data].  [nth k user_ids 0] is [user_ids[k]]: when the
    lists are built the query has returned the ids of the three accounts
    just inserted (lemma [dummy_user_ids_after_seed]), so the [IndexError]
    of a shorter list does not arise and the default is never used. *)
Definition dummy_users : list (string * string * string * string * float * Z) :=
  [ ("dummy1@example.com", "Richa Gupta", "https://i.pravatar.cc/150?img=1",
     "dummy-1", 421.5%float, 5);
    ("dummy2@example.com", "James Chen", "https://i.pravatar.cc/150?img=12",
     "dummy-2", 285%float, 3);
    ("dummy3@example.com", "Sarah Johnson", "https://i.pravatar.cc/150?img=5",
     "dummy-3", 567.25%float, 7) ].

Definition dummy_goals (user_ids : list Z)
  : list (Z * string * float * float * string) :=
  [ (nth 0 user_ids 0, "Concert Tickets", 180%float, 45%float, "Entertainment");
    (nth 0 user_ids 0, "Weekend Trip", 400%float, 120%float, "Travel");
    (nth 1 user_ids 0, "New Laptop", 800%float, 285%float, "Technology");
    (nth 2 user_ids 0, "Emergency Fund", 1000%float, 567.25%float, "Savings") ].

Definition dummy_sacrifices (clk : SeedClock) (user_ids : list Z)
  : list (Z * string * float * Z * string) :=
  [ (nth 0 user_ids 0, "Skipped Latte", 4.5%float, 4, seed_isoformat clk 3);
    (nth 0 user_ids 0, "Packed Lunch", 9.5%float, 5, seed_isoformat clk 4);
    (nth 1 user_ids 0, "No Takeout", 15%float, 3, seed_isoformat clk 5);
    (nth 2 user_ids 0, "Walked Instead", 8%float, 7, seed_isoformat clk 6) ].

(** [INSERT INTO users (email, name, avatar_url, google_sub, total_saved,
    current_streak, last_save_date)]. *)
Definition insert_dummy_user (clk : SeedClock) (i : nat)
    (row : string * string * string * string * float * Z) : Tx unit :=
  let '(email, name, avatar, sub, saved, streak) := row in
  taken <- query (fun db =>
    existsb (fun u => (u_email u =? email)%string
                      || (u_google_sub u =? sub)%string)
            (users db)) ;;
  if taken : bool then raise IntegrityError
  else
    write (fun db => set_users db (users db ++
      [mkUser (next_rowid (map u_id (users db))) email (Some name)
              (Some avatar) sub (to_real saved) streak
              (Some (seed_isoformat clk i)) (seed_timestamp clk SeedUsers i)])).

(** [INSERT INTO goals (user_id, title, target_amount, current_amount,
    category)]. *)
Definition insert_dummy_goal (clk : SeedClock) (i : nat)
    (row : Z * string * float * float * string) : Tx unit :=
  let '(user_id, title, target, current, category) := row in
  match to_real target with
  | None => raise IntegrityError
  | Some t =>
      write (fun db => set_goals db (goals db ++
        [mkGoal (next_rowid (map g_id (goals db))) user_id title t
                (to_real current) category (seed_timestamp clk SeedGoals i)]))
  end.

(** [INSERT INTO sacrifices (user_id, title, amount, days_count,
    last_done_date)]. *)
Definition insert_dummy_sacrifice (clk : SeedClock) (i : nat)
    (row : Z * string * float * Z * string) : Tx unit :=
  let '(user_id, title, amount, days, date) := row in
  match to_real amount with
  | None => raise IntegrityError
  | Some a =>
      write (fun db => set_sacrifices db (sacrifices db ++
        [mkSacrifice (next_rowid (map s_id (sacrifices db))) user_id title a
                     days (Some date) (seed_timestamp clk SeedSacrifices i)]))
  end.

(** The ASCII letters of a character in lower case: [LIKE] does not
    distinguish the case of ASCII letters. *)
Definition ascii_lower (c : Ascii.ascii) : Ascii.ascii :=
  let n := Ascii.nat_of_ascii c in
  if ((65 <=? n) && (n <=? 90))%nat then Ascii.ascii_of_nat (n + 32) else c.

(** [s LIKE 'prefix%'], for a prefix without wildcards. *)
Fixpoint like_prefix (prefix s : string) : bool :=
  match prefix, s with
  | EmptyString, _ => true
  | String _ _, EmptyString => false
  | String p prefix', String c s' =>
      Ascii.eqb (ascii_lower p) (ascii_lower c) && like_prefix prefix' s'
  end.

Fixpoint insert_asc (x : Z) (l : list Z) : list Z :=
  match l with
  | [] => [x]
  | y :: l' => if x <=? y then x :: l else y :: insert_asc x l'
  end.

(** [SELECT id FROM users WHERE email LIKE 'dummy%' ORDER BY id]. *)
Definition dummy_user_ids (db : DB) : list Z :=
  fold_right insert_asc []
    (map u_id (filter (fun u => like_prefix "dummy" (u_email u)) (users db))).

(** The feed event of a goal row, and of a sacrifice row. *)
Definition insert_goal_event (clk : SeedClock) (i : nat) (g : Goal) : Tx unit :=
  insert_feed_event (at_time (seed_timestamp clk SeedGoalEvents i))
                    (g_user_id g) goal_created (GoalData (g_id g) (g_title g)) ;;
  ret tt.

Definition insert_sacrifice_event (clk : SeedClock) (i : nat) (s : Sacrifice)
  : Tx unit :=
  insert_feed_event (at_time (seed_timestamp clk SeedSacrificeEvents i))
                    (s_user_id s) sacrifice_logged
                    (SacrificeData (s_id s) (s_title s) (s_days_count s)) ;;
  ret tt.

(** [create_dummy_data], up to its first [conn.commit()]: the accounts. *)
Definition seed_users (clk : SeedClock) : Tx unit :=
  for_each (insert_dummy_user clk) 0 dummy_users ;;
  commit.

(** [create_dummy_data], after its first [conn.commit()]: the goals and
    sacrifices of the new accounts, then one feed event for every row of
    [goals] and one for every row of [sacrifices]. *)
Definition seed_rows (clk : SeedClock) : Tx unit :=
  user_ids <- query dummy_user_ids ;;
  for_each (insert_dummy_goal clk) 0 (dummy_goals user_ids) ;;
  for_each (insert_dummy_sacrifice clk) 0 (dummy_sacrifices clk user_ids) ;;
  all_goals <- query goals ;;
  for_each (insert_goal_event clk) 0 all_goals ;;
  all_sacrifices <- query sacrifices ;;
  for_each (insert_sacrifice_event clk) 0 all_sacrifices ;;
  commit.

(** [create_dummy_data].  What its first commit wrote stays on disk
    whatever happens afterwards, so the two halves run as two
    transactions on the same database. *)
Definition create_dummy_data (clk : SeedClock) (db : DB) : result unit * DB :=
  match get_db (seed_users clk) db with
  | (Ok _, db1) => get_db (seed_rows clk) db1
  | (Err e, db1) => (Err e, db1)
  end.

(** [init_db]: the four [CREATE TABLE IF NOT EXISTS] leave existing tables
    alone (a new file has four empty tables); the demo data is added when
    [users] is empty. *)
Definition init_db (clk : SeedClock) (db : DB) : result unit * DB :=
  match users db with
  | [] => create_dummy_data clk db
  | _ :: _ => (Ok tt, db)
  end.

(** A new database file. *)
Definition empty_db : DB := mkDB [] [] [] [].

(** A database on which all the consistency properties hold. *)
Definition consistent (db : DB) : Prop :=
  ids_unique db /\ titles_unique db /\ accounts_unique db /\
  feed_refers db /\ totals_valid db.

(** Carol's first login, and a later one after she changed her name. *)
Definition carol : UserInfo :=
  mkUserInfo "sub-carol" (Some "carol@example.com") (Some "Carol") None.

Definition carol_renamed : UserInfo :=
  mkUserInfo "sub-carol" (Some "carol@work.example") (Some "Caroline") None.

(** A subject without an account whose email is the one of alice. *)
Definition alice_twin : UserInfo :=
  mkUserInfo "sub-twin" (Some "alice@example.com") (Some "Alice II") None.

(** The same sum over a list of sacrifice rows. *)
Definition days_of (user_id : Z) (ss : list Sacrifice) : Z :=
  fold_right Z.add 0
    (map s_days_count (filter (fun s => s_user_id s =? user_id) ss)).

(** The number of successful [log_sacrifice] calls of [user_id] under
    [title] in a sequence of requests served from [db]. *)
Fixpoint title_logs (user_id : Z) (title : string)
    (reqs : list (Clock * Request)) (db : DB) : nat :=
  match reqs with
  | [] => 0%nat
  | (clk, req) :: rest =>
      let (ok, db') := handle clk req db in
      match req with
      | LogSacrifice sacrifice uid =>
          if ok && (uid =? user_id) && (sc_title sacrifice =? title)%string
          then S (title_logs user_id title rest db')
          else title_logs user_id title rest db'
      | _ => title_logs user_id title rest db'
      end
  end.

(** The repetition count stored for a title of an account, if any. *)
Definition days_count_of (user_id : Z) (title : string) (db : DB) : option Z :=
  option_map s_days_count (sacrifice_by_title user_id title db).

(** A repetition count after [n] more logs: unchanged for [n = 0],
    otherwise the old count (0 when there was no record) plus [n]. *)
Definition after_logs (start : option Z) (n : nat) : option Z :=
  match n with
  | O => start
  | S _ => Some (match start with Some d => d | None => 0 end + Z.of_nat n)
  end.

(** * Properties *)

(** ** What each mutating handler does to the database *)

Lemma create_goal_eq clk goal user_id db :
  create_goal clk goal user_id db =
  match to_real (gc_target_amount goal) with
  | None => (Err IntegrityError, db)
  | Some target =>
      (Ok (mkGoalCreated (next_rowid (map g_id (goals db))) (gc_title goal)),
       mkDB (users db)
            (goals db ++ [goal_row clk goal user_id target db])
            (sacrifices db)
            (feed_events db ++ [goal_event clk goal user_id db]))
  end.
Proof.
  unfold create_goal, get_db, insert_goal, bind.
  destruct (to_real (gc_target_amount goal)); reflexivity.
Qed.

Lemma log_sacrifice_eq clk sacrifice user_id db :
  log_sacrifice clk sacrifice user_id db =
  match sacrifice_by_title user_id (sc_title sacrifice) db with
  | Some row =>
      (Ok (mkSacrificeLogged "Sacrifice logged" (s_days_count row + 1)),
       mkDB (credit_users (sc_amount sacrifice) user_id (users db))
            (goals db)
            (map (fun s => if s_id s =? s_id row
                           then set_days (s_days_count row + 1)
                                         (now_isoformat clk) s
                           else s) (sacrifices db))
            (feed_events db ++
               [sacrifice_event clk sacrifice user_id (s_id row)
                                (s_days_count row + 1) db]))
  | None =>
      match to_real (sc_amount sacrifice) with
      | None => (Err IntegrityError, db)
      | Some amount =>
          (Ok (mkSacrificeLogged "Sacrifice logged" 1),
           mkDB (credit_users (sc_amount sacrifice) user_id (users db))
                (goals db)
                (sacrifices db ++ [sacrifice_row clk sacrifice user_id amount db])
                (feed_events db ++
                   [sacrifice_event clk sacrifice user_id
                      (next_rowid (map s_id (sacrifices db))) 1 db]))
      end
  end.
Proof.
  unfold log_sacrifice, get_db, bind, query, insert_sacrifice. cbn.
  destruct (sacrifice_by_title user_id (sc_title sacrifice) db).
  - reflexivity.
  - unfold bind. destruct (to_real (sc_amount sacrifice)); reflexivity.
Qed.

Lemma google_callback_eq clk info db :
  google_callback clk info db =
  match user_by_sub (ui_sub info) db with
  | Some u => (Ok (u_id u), db)
  | None =>
      match ui_email info with
      | None => (Err IntegrityError, db)
      | Some email =>
          if existsb (fun u => (u_email u =? email)%string
                               || (u_google_sub u =? ui_sub info)%string)
                     (users db)
          then (Err IntegrityError, db)
          else (Ok (next_rowid (map u_id (users db))),
                mkDB (users db ++ [user_row clk info email db])
                     (goals db) (sacrifices db) (feed_events db))
      end
  end.
Proof.
  unfold google_callback, get_db, bind, query, insert_user. cbn.
  destruct (user_by_sub (ui_sub info) db); [reflexivity|].
  destruct (ui_email info) as [email|]; [|reflexivity].
  unfold bind. cbn.
  destruct (existsb _ (users db)); reflexivity.
Qed.

(** ** Sort keys: doubles and timestamps *)

Lemma SFcompare_Lt_Gt a b :
  SFcompare a b = Some Lt -> SFcompare b a = Some Gt.
Proof.
  destruct a as [sa|sa| |sa ma ea], b as [sb|sb| |sb mb eb]; cbn;
    try discriminate; try (destruct sa; try destruct sb; cbn; congruence).
  change (PosDef.Pos.compare_cont Eq ma mb) with (Pos.compare ma mb).
  change (PosDef.Pos.compare_cont Eq mb ma) with (Pos.compare mb ma).
  rewrite (Z.compare_antisym ea eb), (Pos.compare_antisym ma mb).
  destruct sa, sb; try congruence;
    destruct (ea ?= eb)%Z; cbn; try congruence;
    destruct (Pos.compare ma mb); cbn; congruence.
Qed.

Lemma float_ltb_asym x y : (x <? y)%float = true -> (y <? x)%float = false.
Proof.
  rewrite !ltb_spec. unfold SFltb.
  destruct (SFcompare (Prim2SF x) (Prim2SF y)) as [[]|] eqn:E; try discriminate.
  intros _. now rewrite (SFcompare_Lt_Gt _ _ E).
Qed.

Lemma real_ltb_asym a b : real_ltb a b = true -> real_ltb b a = false.
Proof.
  destruct a, b; cbn; try congruence. apply float_ltb_asym.
Qed.

Lemma string_ltb_asym s t : String.ltb s t = true -> String.ltb t s = false.
Proof.
  unfold String.ltb. rewrite (String.compare_antisym s t).
  destruct (String.compare t s); cbn; congruence.
Qed.

Lemma string_ltb_irrefl s : String.ltb s s = false.
Proof.
  destruct (String.ltb s s) eqn:E; [|reflexivity].
  now rewrite (string_ltb_asym _ _ E) in E.
Qed.

(** The stored form of a double equals it as a number. *)
Lemma to_real_eqb f r : to_real f = Some r -> (r =? f)%float = true.
Proof.
  unfold to_real, PrimFloat.is_nan.
  destruct (f =? f)%float eqn:Hrefl; cbn; [|discriminate].
  destruct (0 =? f)%float eqn:Hz; intros [= <-]; assumption.
Qed.

Lemma to_real_None f : to_real f = None <-> PrimFloat.is_nan f = true.
Proof.
  unfold to_real. destruct (PrimFloat.is_nan f); [tauto|].
  destruct (0 =? f)%float; split; discriminate.
Qed.

(** ** Sorting *)

Section OrderByFacts.

Context {A : Type} (below : A -> A -> bool).
Hypothesis below_asym : forall a b, below a b = true -> below b a = false.

Lemma insert_desc_perm x l : Permutation (x :: l) (insert_desc below x l).
Proof.
  induction l as [|y l IH]; cbn; [reflexivity|].
  destruct (below x y); [|reflexivity].
  rewrite perm_swap. now apply perm_skip.
Qed.

Lemma insert_desc_hd x y l :
  desc below y x -> HdRel (desc below) y l ->
  HdRel (desc below) y (insert_desc below x l).
Proof.
  intros Hyx Hl. destruct l as [|z l]; cbn; [now constructor|].
  destruct (below x z); constructor; [now inversion Hl | exact Hyx].
Qed.

Lemma insert_desc_sorted x l :
  Sorted (desc below) l -> Sorted (desc below) (insert_desc below x l).
Proof.
  induction 1 as [|y l Hs IH Hhd]; cbn.
  - repeat constructor.
  - destruct (below x y) eqn:E.
    + constructor; [exact IH|].
      apply insert_desc_hd; [|exact Hhd]. now apply below_asym.
    + constructor; [now constructor|]. now constructor.
Qed.

Lemma sort_desc_ok rows : order_by_desc below rows (sort_desc below rows).
Proof.
  split; induction rows as [|x rows IH]; cbn.
  - reflexivity.
  - rewrite <- insert_desc_perm. now apply perm_skip.
  - constructor.
  - now apply insert_desc_sorted.
Qed.

End OrderByFacts.

Lemma Sorted_firstn {A} (R : A -> A -> Prop) n l :
  Sorted R l -> Sorted R (firstn n l).
Proof.
  intros H. revert n. induction H as [|x l Hs IH Hhd]; intros [|n]; cbn;
    try constructor; [apply IH|].
  destruct Hhd; destruct n; cbn; now constructor.
Qed.

Lemma Sorted_map {A B} (f : A -> B) (R : A -> A -> Prop) (S : B -> B -> Prop) l :
  (forall a b, R a b -> S (f a) (f b)) ->
  Sorted R l -> Sorted S (map f l).
Proof.
  intros Hf. induction 1 as [|x l Hs IH Hhd]; cbn; constructor; [exact IH|].
  destruct Hhd; cbn; constructor. now apply Hf.
Qed.

Lemma limit_length {A} n (rows : list A) : (List.length (limit n rows) <= n)%nat.
Proof. apply firstn_le_length. Qed.

Lemma limit_incl {A} n (rows : list A) x : In x (limit n rows) -> In x rows.
Proof.
  unfold limit. intros H. rewrite <- (firstn_skipn n rows).
  apply in_or_app. now left.
Qed.

(** ** The account row across requests *)

Lemma find_app_some {A} (p : A -> bool) l l' x :
  find p l = Some x -> find p (l ++ l') = Some x.
Proof.
  induction l as [|y l IH]; cbn; [discriminate|].
  destruct (p y); [trivial | exact IH].
Qed.

Lemma user_by_id_credit amount uid user_id us gs ss fs :
  user_by_id user_id (mkDB (credit_users amount uid us) gs ss fs) =
  option_map (fun u => if u_id u =? uid then credit amount u else u)
             (user_by_id user_id (mkDB us gs ss fs)).
Proof.
  unfold user_by_id, credit_users; cbn.
  induction us as [|u us IH]; cbn; [reflexivity|].
  replace (u_id (if u_id u =? uid then credit amount u else u)) with (u_id u)
    by (destruct (u_id u =? uid); reflexivity).
  destruct (u_id u =? user_id); [reflexivity | exact IH].
Qed.

Lemma user_by_id_users user_id db gs ss fs :
  user_by_id user_id (mkDB (users db) gs ss fs) = user_by_id user_id db.
Proof. reflexivity. Qed.

Lemma user_by_id_id user_id db u : user_by_id user_id db = Some u -> u_id u = user_id.
Proof.
  unfold user_by_id. intros H. apply find_some in H. now apply Z.eqb_eq.
Qed.

Lemma handle_user clk req db user_id u :
  user_by_id user_id db = Some u ->
  user_by_id user_id (snd (handle clk req db)) =
  Some (user_after clk req db user_id u).
Proof.
  intros Hu. pose proof (user_by_id_id _ _ _ Hu) as Hid.
  destruct req as [info | goal uid | sacrifice uid]; unfold user_after, handle.
  - rewrite google_callback_eq.
    destruct (user_by_sub (ui_sub info) db); [exact Hu|].
    destruct (ui_email info) as [email|]; [|exact Hu].
    destruct (existsb _ (users db)); [exact Hu|].
    cbn [snd]. unfold user_by_id in *. cbn [users].
    now apply find_app_some.
  - rewrite create_goal_eq.
    destruct (to_real (gc_target_amount goal)); exact Hu.
  - rewrite log_sacrifice_eq.
    destruct (sacrifice_by_title uid (sc_title sacrifice) db);
      [|destruct (to_real (sc_amount sacrifice))];
      cbn [fst snd succeeded andb]; try exact Hu;
      rewrite user_by_id_credit, user_by_id_users, Hu; cbn [option_map];
      rewrite Hid, (Z.eqb_sym uid); reflexivity.
Qed.

Lemma sum_from_cons start a amounts :
  sum_from start (a :: amounts) = sum_from (real_add start (to_real a)) amounts.
Proof. reflexivity. Qed.

Lemma serve_account reqs : forall db user_id u,
  user_by_id user_id db = Some u ->
  exists u',
    user_by_id user_id (serve reqs db) = Some u' /\
    u_total_saved u' =
      sum_from (u_total_saved u) (logged_amounts user_id reqs db) /\
    u_current_streak u' =
      u_current_streak u + Z.of_nat (List.length (logged_amounts user_id reqs db)).
Proof.
  induction reqs as [|[clk req] reqs IH]; intros db user_id u Hu.
  - exists u. cbn. repeat split; [exact Hu | lia].
  - pose proof (handle_user clk req db user_id u Hu) as Hstep.
    destruct (IH _ _ _ Hstep) as (u' & Hu' & Htot & Hstr).
    exists u'. split; [exact Hu'|].
    rewrite Htot, Hstr. cbn [logged_amounts]. unfold user_after.
    destruct (handle clk req db) as [ok db'] eqn:Hh. cbn [fst snd].
    destruct req as [info | goal uid | sacrifice uid];
      [split; reflexivity | split; reflexivity |].
    destruct (ok && (uid =? user_id)); [|split; reflexivity].
    cbn [List.length]. rewrite sum_from_cons. cbn. split; [reflexivity | lia].
Qed.

(** When the requests are calls of [log_sacrifice] of one account and all
    of them succeed, the logged amounts are the amounts of the calls. *)
Lemma logged_amounts_logs_of user_id calls : forall db,
  all_succeed (logs_of user_id calls) db = true ->
  logged_amounts user_id (logs_of user_id calls) db =
  map (fun c => sc_amount (snd c)) calls.
Proof.
  induction calls as [|[clk sacrifice] calls IH]; intros db Hall; [reflexivity|].
  cbn [logs_of map fst snd all_succeed logged_amounts] in *.
  apply andb_prop in Hall. destruct Hall as [Hok Hrest].
  destruct (handle clk (LogSacrifice sacrifice user_id) db) as [ok db'].
  cbn [fst snd] in *. rewrite Hok, Z.eqb_refl. cbn [andb].
  f_equal. now apply IH.
Qed.

(** ** Row ids and lookups *)

Lemma next_rowid_above ids x : In x ids -> x < next_rowid ids.
Proof.
  unfold next_rowid. induction ids as [|y ids IH]; cbn [fold_right In]; [tauto|].
  intros [->|H]; [lia|]. specialize (IH H). lia.
Qed.

Lemma next_rowid_fresh ids : ~ In (next_rowid ids) ids.
Proof. intros H. apply next_rowid_above in H. lia. Qed.

Lemma find_app_none {A} (p : A -> bool) l x :
  find p l = None -> find p (l ++ [x]) = if p x then Some x else None.
Proof.
  induction l as [|y l IH]; cbn; [reflexivity|].
  destruct (p y); [discriminate | exact IH].
Qed.

Lemma sacrifice_by_title_updated user_id title us gs ss fs row new_days stamp :
  sacrifice_by_title user_id title (mkDB us gs ss fs) = Some row ->
  forall us' gs' fs',
  sacrifice_by_title user_id title
    (mkDB us' gs'
       (map (fun s => if s_id s =? s_id row then set_days new_days stamp s else s)
            ss) fs') =
  Some (set_days new_days stamp row).
Proof.
  unfold sacrifice_by_title; cbn. intros Hrow _ _ _. revert Hrow.
  induction ss as [|s ss IH]; cbn; intros Hrow; [discriminate|].
  destruct (s_id s =? s_id row) eqn:Hid; cbn [set_days s_user_id s_title];
    destruct ((s_user_id s =? user_id) && (s_title s =? title)%string);
    try exact (IH Hrow); injection Hrow as ->; [reflexivity|].
  now rewrite Z.eqb_refl in Hid.
Qed.

(** ** C1: total saved and streak after N logs *)

(** C1, refuted as stated.  The total saved is a [REAL] column, and each
    call adds its amount to it in double arithmetic, which rounds and
    overflows: the total after N calls depends on the order of the calls.
    Logging 0.1, 0.2 and 0.3 leaves a larger total than logging 0.3, 0.2
    and 0.1; two savings of 1e308 followed by two withdrawals of 1e308
    leave infinity, the same four calls taking turns leave 0.  All calls
    succeed, and the streak is N in either order. *)
Lemma total_saved_depends_on_call_order :
  (Permutation dimes dimes_reordered /\
   all_succeed (logs_of 1 dimes) fresh_db = true /\
   all_succeed (logs_of 1 dimes_reordered) fresh_db = true /\
   exists u1 u2,
     user_by_id 1 (serve (logs_of 1 dimes) fresh_db) = Some u1 /\
     user_by_id 1 (serve (logs_of 1 dimes_reordered) fresh_db) = Some u2 /\
     u_current_streak u1 = 3 /\ u_current_streak u2 = 3 /\
     u_total_saved u1 = Some (0.1 + 0.2 + 0.3)%float /\
     u_total_saved u2 = Some (0.3 + 0.2 + 0.1)%float /\
     real_ltb (u_total_saved u2) (u_total_saved u1) = true) /\
  (Permutation fortunes fortunes_reordered /\
   all_succeed (logs_of 1 fortunes) fresh_db = true /\
   all_succeed (logs_of 1 fortunes_reordered) fresh_db = true /\
   exists u1 u2,
     user_by_id 1 (serve (logs_of 1 fortunes) fresh_db) = Some u1 /\
     user_by_id 1 (serve (logs_of 1 fortunes_reordered) fresh_db) = Some u2 /\
     u_current_streak u1 = 4 /\ u_current_streak u2 = 4 /\
     u_total_saved u1 = Some infinity /\
     u_total_saved u2 = Some 0%float).
Proof.
  split.
  - split.
    { unfold dimes, dimes_reordered.
      eapply perm_trans; [apply perm_skip, perm_swap|].
      eapply perm_trans; [apply perm_swap|].
      apply perm_skip, perm_swap. }
    split; [vm_compute; reflexivity|].
    split; [vm_compute; reflexivity|].
    eexists. eexists. repeat split; vm_compute; reflexivity.
  - split.
    { unfold fortunes, fortunes_reordered. apply perm_skip, perm_swap. }
    split; [vm_compute; reflexivity|].
    split; [vm_compute; reflexivity|].
    eexists. eexists. repeat split; vm_compute; reflexivity.
Qed.

(** C1, amended.  Take an account whose total saved is 0 and whose streak
    is 0, and any sequence of N calls of [log_sacrifice] for it that all
    succeed, in any order and under new or repeated titles.  Afterwards
    its streak is N, and its total saved is the sum of the [amount]
    arguments of the N calls added one after the other, in the order of
    the calls, in the arithmetic of a [REAL] column ([sum_amounts]); that
    sum is not independent of the order. *)
Theorem total_saved_and_streak_after_n_logs :
  forall (calls : list (Clock * SacrificeCreate)) (db : DB) (user_id : Z)
         (u : User),
    user_by_id user_id db = Some u ->
    u_total_saved u = Some 0%float ->
    u_current_streak u = 0 ->
    all_succeed (logs_of user_id calls) db = true ->
    exists u',
      user_by_id user_id (serve (logs_of user_id calls) db) = Some u' /\
      u_total_saved u' = sum_amounts (map (fun c => sc_amount (snd c)) calls) /\
      u_current_streak u' = Z.of_nat (List.length calls).
Proof.
  intros calls db user_id u Hu Htotal Hstreak Hall.
  destruct (serve_account (logs_of user_id calls) db user_id u Hu)
    as (u' & Hu' & Htot & Hstr).
  rewrite (logged_amounts_logs_of _ _ _ Hall) in Htot, Hstr.
  rewrite length_map in Hstr. rewrite Htotal in Htot. rewrite Hstreak in Hstr.
  exists u'. repeat split; assumption.
Qed.

Lemma total_saved_and_streak_after_n_logs_witness :
  (exists u',
      user_by_id 1 (serve (logs_of 1 alice_calls) fresh_db) = Some u' /\
      u_total_saved u' = Some 19%float /\
      u_current_streak u' = 3) /\
  (exists u',
      user_by_id 1 (serve (logs_of 1 (rev alice_calls)) fresh_db) = Some u' /\
      u_total_saved u' = Some 19%float /\
      u_current_streak u' = 3).
Proof.
  split.
  - apply (total_saved_and_streak_after_n_logs alice_calls fresh_db 1 alice);
      reflexivity.
  - apply (total_saved_and_streak_after_n_logs (rev alice_calls) fresh_db 1 alice);
      reflexivity.
Defined.

(** The same among other traffic: the requests may be mixed with goals,
    logins, logs of other accounts and rejected calls.  The total saved of
    the account is the sum of the amounts of its own successful logs, and
    its streak is their number. *)
Theorem total_saved_and_streak_after_requests :
  forall (reqs : list (Clock * Request)) (db : DB) (user_id : Z) (u : User),
    user_by_id user_id db = Some u ->
    u_total_saved u = Some 0%float ->
    u_current_streak u = 0 ->
    exists u',
      user_by_id user_id (serve reqs db) = Some u' /\
      u_total_saved u' = sum_amounts (logged_amounts user_id reqs db) /\
      u_current_streak u' =
        Z.of_nat (List.length (logged_amounts user_id reqs db)).
Proof.
  intros reqs db user_id u Hu Htotal Hstreak.
  destruct (serve_account reqs db user_id u Hu) as (u' & Hu' & Htot & Hstr).
  exists u'. rewrite Htotal in Htot. rewrite Hstreak in Hstr.
  repeat split; assumption.
Qed.

Lemma total_saved_and_streak_after_requests_witness :
  logged_amounts 1 coffee_requests fresh_db = [4.5%float; 5%float] /\
  exists u',
    user_by_id 1 (serve coffee_requests fresh_db) = Some u' /\
    u_total_saved u' = Some 9.5%float /\
    u_current_streak u' = 2.
Proof.
  split; [reflexivity|].
  destruct (total_saved_and_streak_after_requests coffee_requests fresh_db 1 alice)
    as (u' & Hu' & Htot & Hstr); try reflexivity.
  exists u'. repeat split; assumption.
Defined.

(** ** C2: what a request can do to total saved and streak *)

(** C2, refuted as stated.  [amount] is not validated: a log with amount
    [-5] is accepted and takes alice's total saved from 9.5 down to 4.5. *)
Lemma negative_amount_lowers_total_saved :
  let clk := at_time "2024-05-04 07:00:00" in
  exists u u',
    user_by_id 1 coffee_db = Some u /\
    fst (log_sacrifice clk refund 1 coffee_db) =
      Ok (mkSacrificeLogged "Sacrifice logged" 1) /\
    user_by_id 1 (snd (log_sacrifice clk refund 1 coffee_db)) = Some u' /\
    u_total_saved u = Some 9.5%float /\
    u_total_saved u' = Some 4.5%float /\
    real_ltb (u_total_saved u') (u_total_saved u) = true.
Proof.
  cbv zeta. eexists. eexists. repeat split; vm_compute; reflexivity.
Qed.

(** C2, amended.  No request lowers the streak of an account.  A
    successful [log_sacrifice] of the account sets its total saved to the
    old total plus the request's amount (so a negative amount lowers it)
    and raises its streak by exactly 1.  Every other request, and every
    [log_sacrifice] that fails, leaves both the total saved and the streak
    of the account as they are. *)
Theorem streak_never_decreases_total_moves_by_amount :
  forall (clk : Clock) (req : Request) (db : DB) (user_id : Z) (u : User),
    user_by_id user_id db = Some u ->
    exists u',
      user_by_id user_id (snd (handle clk req db)) = Some u' /\
      u_current_streak u <= u_current_streak u' /\
      (forall sacrifice,
          req = LogSacrifice sacrifice user_id ->
          fst (handle clk req db) = true ->
          u_total_saved u' =
            real_add (u_total_saved u) (to_real (sc_amount sacrifice)) /\
          u_current_streak u' = u_current_streak u + 1) /\
      ((forall sacrifice,
           req = LogSacrifice sacrifice user_id ->
           fst (handle clk req db) = false) ->
       u_total_saved u' = u_total_saved u /\
       u_current_streak u' = u_current_streak u).
Proof.
  intros clk req db user_id u Hu.
  exists (user_after clk req db user_id u).
  split; [now apply handle_user|].
  unfold user_after. destruct req as [info | goal uid | sacrifice uid].
  - split; [lia|]. split; [discriminate | now split].
  - split; [lia|]. split; [discriminate | now split].
  - destruct (fst (handle clk (LogSacrifice sacrifice uid) db)) eqn:Hok;
      cbn [andb].
    + destruct (uid =? user_id) eqn:Huid.
      * apply Z.eqb_eq in Huid. subst uid. cbn. split; [lia|]. split.
        -- intros s [= <-] _. now split.
        -- intros H. specialize (H sacrifice eq_refl). discriminate.
      * apply Z.eqb_neq in Huid. split; [lia|]. split; [|now split].
        intros s [= _ Hs]. congruence.
    + split; [lia|]. split; [|now split].
      intros s _ H. discriminate.
Qed.

Lemma streak_never_decreases_total_moves_by_amount_witness :
  exists u',
    user_by_id 1 (snd (handle (at_time "2024-05-04 07:00:00")
                              (LogSacrifice refund 1) coffee_db)) = Some u' /\
    u_total_saved u' = Some 4.5%float /\
    u_current_streak u' = 3.
Proof.
  destruct (streak_never_decreases_total_moves_by_amount
              (at_time "2024-05-04 07:00:00") (LogSacrifice refund 1)
              coffee_db 1
              (mkUser 1 "alice@example.com" (Some "Alice") None "sub-alice"
                      (Some 9.5%float) 2 None "2024-05-01 08:00:00")
              eq_refl) as (u' & Hu' & _ & Hlog & _).
  exists u'. split; [exact Hu'|].
  exact (Hlog refund eq_refl eq_refl).
Defined.

(** ** C3: [create_goal] and its inputs *)

(** C3, refuted as stated.  With an empty title and a target amount of 0
    (or of -20) the call succeeds, and the database gains a goal row and a
    feed event. *)
Lemma create_goal_accepts_empty_title_and_zero_target :
  let clk := at_time "2024-05-02 07:00:00" in
  create_goal clk (mkGoalCreate "" 0%float default_category) 1 fresh_db =
    (Ok (mkGoalCreated 1 ""),
     mkDB [alice; bob]
          [mkGoal 1 1 "" 0%float (Some 0%float) "General" "2024-05-02 07:00:00"]
          []
          [mkFeedEvent 1 1 goal_created (GoalData 1 "") "2024-05-02 07:00:00"]) /\
  create_goal clk (mkGoalCreate "Debt" (-20)%float default_category) 1 fresh_db =
    (Ok (mkGoalCreated 1 "Debt"),
     mkDB [alice; bob]
          [mkGoal 1 1 "Debt" (-20)%float (Some 0%float) "General"
                  "2024-05-02 07:00:00"]
          []
          [mkFeedEvent 1 1 goal_created (GoalData 1 "Debt")
                       "2024-05-02 07:00:00"]).
Proof. split; reflexivity. Qed.

(** C3, amended.  [create_goal] checks neither the title nor the sign of
    the target amount.  Whenever the target amount is a number (zero and
    negative numbers included, whatever the title) the call succeeds: it
    adds exactly one goal row, owned by the caller, with the request's
    title and category, the target amount as stored and progress 0, and
    exactly one [goal_created] event that carries the id and title of the
    goal; it returns that id and title.  The call fails only when the
    target amount is not a number; it then raises [IntegrityError] and
    leaves the database as it was: no goal row, no feed event. *)
Theorem create_goal_outcome :
  forall (clk : Clock) (goal : GoalCreate) (user_id : Z) (db : DB),
    (PrimFloat.is_nan (gc_target_amount goal) = false /\
     exists g ev,
       create_goal clk goal user_id db =
         (Ok (mkGoalCreated (g_id g) (gc_title goal)),
          mkDB (users db) (goals db ++ [g]) (sacrifices db)
               (feed_events db ++ [ev])) /\
       g_user_id g = user_id /\
       g_title g = gc_title goal /\
       g_category g = gc_category goal /\
       to_real (gc_target_amount goal) = Some (g_target_amount g) /\
       g_current_amount g = Some 0%float /\
       f_user_id ev = user_id /\
       f_event_type ev = goal_created /\
       f_event_data ev = GoalData (g_id g) (gc_title goal))
    \/
    (PrimFloat.is_nan (gc_target_amount goal) = true /\
     create_goal clk goal user_id db = (Err IntegrityError, db)).
Proof.
  intros clk goal user_id db. rewrite create_goal_eq.
  destruct (to_real (gc_target_amount goal)) as [target|] eqn:Ht.
  - left. split.
    + destruct (PrimFloat.is_nan (gc_target_amount goal)) eqn:Hn; [|reflexivity].
      apply to_real_None in Hn. congruence.
    + exists (goal_row clk goal user_id target db),
             (goal_event clk goal user_id db).
      repeat split.
  - right. split; [now apply to_real_None | reflexivity].
Qed.

(** ** C4: [log_sacrifice] and its inputs *)

(** C4, refuted as stated.  With an empty title and an amount of 0 the
    call succeeds: the database gains a sacrifice row and a feed event,
    and the streak of the account goes up. *)
Lemma log_sacrifice_accepts_empty_title_and_zero_amount :
  log_sacrifice (at_time "2024-05-02 07:00:00")
                (mkSacrificeCreate "" 0%float) 1 fresh_db =
    (Ok (mkSacrificeLogged "Sacrifice logged" 1),
     mkDB [mkUser 1 "alice@example.com" (Some "Alice") None "sub-alice"
                  (Some 0%float) 1 None "2024-05-01 08:00:00";
           bob]
          []
          [mkSacrifice 1 1 "" 0%float 1 (Some "2024-05-02 07:00:00")
                       "2024-05-02 07:00:00"]
          [mkFeedEvent 1 1 sacrifice_logged (SacrificeData 1 "" 1)
                       "2024-05-02 07:00:00"]).
Proof. reflexivity. Qed.

(** C4, amended.  [log_sacrifice] checks neither the title nor the sign of
    the amount.  When the account already has a record of the title, or
    when the amount is a number (zero and negative numbers included), the
    call succeeds: the row of the account is credited, the goals are left
    alone and exactly one [sacrifice_logged] event of the caller is
    appended.  The call fails only when the title is new for the account
    and the amount is not a number; it then raises [IntegrityError] and
    leaves the database as it was. *)
Theorem log_sacrifice_outcome :
  forall (clk : Clock) (sacrifice : SacrificeCreate) (user_id : Z) (db : DB),
    ((sacrifice_by_title user_id (sc_title sacrifice) db <> None \/
      PrimFloat.is_nan (sc_amount sacrifice) = false) /\
     exists days db' sacrifice_id ev,
       log_sacrifice clk sacrifice user_id db =
         (Ok (mkSacrificeLogged "Sacrifice logged" days), db') /\
       users db' = credit_users (sc_amount sacrifice) user_id (users db) /\
       goals db' = goals db /\
       (List.length (sacrifices db) <= List.length (sacrifices db'))%nat /\
       feed_events db' = (feed_events db ++ [ev])%list /\
       f_user_id ev = user_id /\
       f_event_type ev = sacrifice_logged /\
       f_event_data ev = SacrificeData sacrifice_id (sc_title sacrifice) days)
    \/
    (sacrifice_by_title user_id (sc_title sacrifice) db = None /\
     PrimFloat.is_nan (sc_amount sacrifice) = true /\
     log_sacrifice clk sacrifice user_id db = (Err IntegrityError, db)).
Proof.
  intros clk sacrifice user_id db. rewrite log_sacrifice_eq.
  destruct (sacrifice_by_title user_id (sc_title sacrifice) db) as [row|] eqn:Hrow.
  - left. split; [left; discriminate|].
    do 4 eexists. split; [reflexivity|]. cbn.
    rewrite length_map. repeat split. lia.
  - destruct (to_real (sc_amount sacrifice)) as [amount|] eqn:Ha.
    + left. split.
      * right. destruct (PrimFloat.is_nan (sc_amount sacrifice)) eqn:Hn;
          [|reflexivity].
        apply to_real_None in Hn. congruence.
      * do 4 eexists. split; [reflexivity|]. cbn.
        rewrite length_app. cbn. repeat split. lia.
    + right. repeat split. now apply to_real_None.
Qed.

(** ** C5: logging a title the account already has *)

(** C5.  When the account already has a record of the title, the call
    succeeds and reports the old repetition count plus 1; the table keeps
    the same rows (no row is added, rows of other ids are untouched, no
    stored amount changes), and the record of the title now carries the
    old count plus 1 and the amount it had, whatever amount the call
    supplied. *)
Theorem log_existing_title_bumps_days_count :
  forall (clk : Clock) (sacrifice : SacrificeCreate) (user_id : Z) (db : DB)
         (row : Sacrifice),
    sacrifice_by_title user_id (sc_title sacrifice) db = Some row ->
    exists db' row',
      log_sacrifice clk sacrifice user_id db =
        (Ok (mkSacrificeLogged "Sacrifice logged" (s_days_count row + 1)), db') /\
      map s_id (sacrifices db') = map s_id (sacrifices db) /\
      map s_amount (sacrifices db') = map s_amount (sacrifices db) /\
      (forall s, In s (sacrifices db) -> s_id s <> s_id row ->
                 In s (sacrifices db')) /\
      sacrifice_by_title user_id (sc_title sacrifice) db' = Some row' /\
      s_id row' = s_id row /\
      s_days_count row' = s_days_count row + 1 /\
      s_amount row' = s_amount row.
Proof.
  intros clk sacrifice user_id db row Hrow.
  rewrite log_sacrifice_eq, Hrow.
  eexists. exists (set_days (s_days_count row + 1) (now_isoformat clk) row).
  split; [reflexivity|]. cbn [sacrifices].
  split; [|split; [|split; [|split]]].
  - rewrite map_map. apply map_ext. intros s.
    destruct (s_id s =? s_id row); reflexivity.
  - rewrite map_map. apply map_ext. intros s.
    destruct (s_id s =? s_id row); reflexivity.
  - intros s Hs Hneq. apply in_map_iff. exists s. split; [|exact Hs].
    apply Z.eqb_neq in Hneq. now rewrite Hneq.
  - destruct db as [us gs ss fs]. now apply sacrifice_by_title_updated with (us := us) (gs := gs) (fs := fs).
  - repeat split.
Qed.

Lemma log_existing_title_bumps_days_count_witness :
  exists db' row',
    log_sacrifice (at_time "2024-05-04 07:00:00") coffee_again 1 coffee_db =
      (Ok (mkSacrificeLogged "Sacrifice logged" 3), db') /\
    map s_id (sacrifices db') = [1; 2] /\
    map s_amount (sacrifices db') = [4.5%float; 15%float] /\
    (forall s, In s (sacrifices coffee_db) -> s_id s <> 1 ->
               In s (sacrifices db')) /\
    sacrifice_by_title 1 "Skipped Coffee" db' = Some row' /\
    s_id row' = 1 /\
    s_days_count row' = 3 /\
    s_amount row' = 4.5%float.
Proof.
  exact (log_existing_title_bumps_days_count
           (at_time "2024-05-04 07:00:00") coffee_again 1 coffee_db
           (mkSacrifice 1 1 "Skipped Coffee" 4.5%float 2
                        (Some "2024-05-03 07:00:00") "2024-05-02 07:00:00")
           eq_refl).
Defined.

(** ** C6: logging a title the account does not have yet *)

(** C6.  When the account has no record of the title and the call
    succeeds, it reports a repetition count of 1; the table of sacrifices
    gains exactly one row, under an id that was not in use, owned by the
    caller, with the request's title, repetition count 1 and the request's
    amount as stored; and the feed gains exactly one event, of kind
    [sacrifice_logged], about that row. *)
Theorem log_new_title_creates_one_record :
  forall (clk : Clock) (sacrifice : SacrificeCreate) (user_id : Z) (db db' : DB)
         (r : SacrificeLogged),
    sacrifice_by_title user_id (sc_title sacrifice) db = None ->
    log_sacrifice clk sacrifice user_id db = (Ok r, db') ->
    r = mkSacrificeLogged "Sacrifice logged" 1 /\
    exists new ev,
      sacrifices db' = (sacrifices db ++ [new])%list /\
      ~ In (s_id new) (map s_id (sacrifices db)) /\
      s_user_id new = user_id /\
      s_title new = sc_title sacrifice /\
      s_days_count new = 1 /\
      to_real (sc_amount sacrifice) = Some (s_amount new) /\
      (s_amount new =? sc_amount sacrifice)%float = true /\
      sacrifice_by_title user_id (sc_title sacrifice) db' = Some new /\
      feed_events db' = (feed_events db ++ [ev])%list /\
      f_user_id ev = user_id /\
      f_event_type ev = sacrifice_logged /\
      f_event_data ev = SacrificeData (s_id new) (sc_title sacrifice) 1.
Proof.
  intros clk sacrifice user_id db db' r Hnone Hcall.
  rewrite log_sacrifice_eq, Hnone in Hcall.
  destruct (to_real (sc_amount sacrifice)) as [amount|] eqn:Ha; [|discriminate].
  injection Hcall as <- <-. split; [reflexivity|].
  exists (sacrifice_row clk sacrifice user_id amount db),
         (sacrifice_event clk sacrifice user_id
            (next_rowid (map s_id (sacrifices db))) 1 db).
  cbn [sacrifices feed_events].
  split; [reflexivity|]. split; [apply next_rowid_fresh|].
  do 4 (split; [reflexivity|]).
  split; [now apply to_real_eqb|].
  split; [|repeat split].
  unfold sacrifice_by_title in *. cbn [sacrifices].
  rewrite (find_app_none _ _ _ Hnone). cbn.
  now rewrite Z.eqb_refl, String.eqb_refl.
Qed.

Lemma log_new_title_creates_one_record_witness :
  mkSacrificeLogged "Sacrifice logged" 1 = mkSacrificeLogged "Sacrifice logged" 1 /\
  exists new ev,
    sacrifices (snd (log_sacrifice (at_time "2024-05-04 12:00:00")
                                   packed_lunch 1 coffee_db)) =
      (sacrifices coffee_db ++ [new])%list /\
    ~ In (s_id new) (map s_id (sacrifices coffee_db)) /\
    s_user_id new = 1 /\
    s_title new = "Packed Lunch" /\
    s_days_count new = 1 /\
    to_real 9.5%float = Some (s_amount new) /\
    (s_amount new =? 9.5)%float = true /\
    sacrifice_by_title 1 "Packed Lunch"
      (snd (log_sacrifice (at_time "2024-05-04 12:00:00")
                          packed_lunch 1 coffee_db)) = Some new /\
    feed_events (snd (log_sacrifice (at_time "2024-05-04 12:00:00")
                                    packed_lunch 1 coffee_db)) =
      (feed_events coffee_db ++ [ev])%list /\
    f_user_id ev = 1 /\
    f_event_type ev = sacrifice_logged /\
    f_event_data ev = SacrificeData (s_id new) "Packed Lunch" 1.
Proof.
  apply (log_new_title_creates_one_record
           (at_time "2024-05-04 12:00:00") packed_lunch 1 coffee_db);
    reflexivity.
Defined.

(** ** C7: the dashboard of an account that does not exist *)

(** C7, at the failing input.  For an account id without a row,
    [get_dashboard] has one outcome, an unhandled [TypeError], where
    [get_me] answers the same lookup with the 404 of a missing account. *)
Theorem get_dashboard_unknown_account_type_error :
  (forall r, get_dashboard 99 fresh_db r <-> r = Err TypeError) /\
  get_me 99 fresh_db = (Err (HTTPException 404 "User not found"), fresh_db).
Proof.
  split; [|reflexivity].
  intros r. split.
  - intros H. inversion H as [Hnone | u gs ss Hsome]; [reflexivity|].
    discriminate Hsome.
  - intros ->. now constructor.
Qed.

(** The same for every database and every id without a row. *)
Lemma get_dashboard_no_row db user_id r :
  user_by_id user_id db = None ->
  get_dashboard user_id db r <-> r = Err TypeError.
Proof.
  intros Hnone. split.
  - intros H. inversion H as [_ | u gs ss Hsome]; [reflexivity|]. congruence.
  - intros ->. now constructor.
Qed.

Lemma get_me_eq user_id db :
  get_me user_id db =
  match user_by_id user_id db with
  | Some u => (Ok u, db)
  | None => (Err (HTTPException 404 "User not found"), db)
  end.
Proof.
  unfold get_me, get_db, bind, query. cbn.
  destruct (user_by_id user_id db); reflexivity.
Qed.

(** For an account that exists the dashboard is as specified: the row of
    the account, all its goals and at most five of its sacrifices, both
    in non-increasing order of [created_at]. *)
Lemma get_dashboard_row db user_id u :
  user_by_id user_id db = Some u ->
  (exists r, get_dashboard user_id db r) /\
  forall r, get_dashboard user_id db r ->
    exists d,
      r = Ok d /\
      d_user d = u /\
      Permutation (filter (fun g => g_user_id g =? user_id) (goals db))
                  (d_goals d) /\
      Sorted (desc goal_below) (d_goals d) /\
      (List.length (d_sacrifices d) <= 5)%nat /\
      (forall s, In s (d_sacrifices d) ->
                 In s (sacrifices db) /\ s_user_id s = user_id) /\
      Sorted (desc sacrifice_below) (d_sacrifices d).
Proof.
  intros Hu. split.
  - eexists. eapply dashboard_row; [exact Hu | |];
      apply sort_desc_ok; intros a b; apply string_ltb_asym.
  - intros r H. inversion H as [Hnone | u' gs ss Hsome [Hgp Hgs] [Hsp Hss]];
      [congruence|].
    eexists. split; [reflexivity|]. cbn [d_user d_goals d_sacrifices].
    split; [congruence|]. split; [exact Hgp|]. split; [exact Hgs|].
    split; [apply limit_length|]. split; [|now apply Sorted_firstn].
    intros s Hs. apply limit_incl in Hs.
    apply (Permutation_in _ (Permutation_sym Hsp)) in Hs.
    apply filter_In in Hs. destruct Hs as [Hin Hid].
    split; [exact Hin | now apply Z.eqb_eq].
Qed.

Lemma get_dashboard_row_witness :
  (exists r, get_dashboard 1 coffee_db r) /\
  forall r, get_dashboard 1 coffee_db r ->
    exists d,
      r = Ok d /\
      d_user d = mkUser 1 "alice@example.com" (Some "Alice") None "sub-alice"
                        (Some 9.5%float) 2 None "2024-05-01 08:00:00" /\
      Permutation (filter (fun g => g_user_id g =? 1) (goals coffee_db))
                  (d_goals d) /\
      Sorted (desc goal_below) (d_goals d) /\
      (List.length (d_sacrifices d) <= 5)%nat /\
      (forall s, In s (d_sacrifices d) ->
                 In s (sacrifices coffee_db) /\ s_user_id s = 1) /\
      Sorted (desc sacrifice_below) (d_sacrifices d).
Proof.
  apply (get_dashboard_row coffee_db 1). reflexivity.
Defined.

(** ** The leaderboard by the text of its query *)

(** By the text of the query: in every state [get_leaderboard] has a
    result, and every result lists at most 10 accounts (10, or all of
    them when there are fewer), each with the fields of its row, in
    non-increasing order of total saved. *)
Lemma get_leaderboard_top10_sorted :
  forall (db : DB),
    (exists rows, get_leaderboard db rows) /\
    (forall rows,
        get_leaderboard db rows ->
        (List.length rows <= 10)%nat /\
        List.length rows = Nat.min 10 (List.length (users db)) /\
        Sorted not_poorer rows /\
        (forall r, In r rows ->
                   exists u, In u (users db) /\ r = leaderboard_row u)).
Proof.
  intros db. split.
  - eexists. exists (sort_desc user_below (users db)). split; [|reflexivity].
    apply sort_desc_ok. intros a b. apply real_ltb_asym.
  - intros rows (sorted & [Hperm Hsorted] & ->).
    rewrite length_map. unfold limit.
    split; [apply firstn_le_length|].
    split; [rewrite length_firstn; now rewrite (Permutation_length Hperm)|].
    split.
    + apply Sorted_map with (R := desc user_below);
        [intros a b H; exact H | now apply Sorted_firstn].
    + intros r Hr. apply in_map_iff in Hr. destruct Hr as (u & <- & Hu).
      exists u. split; [|reflexivity].
      apply limit_incl in Hu.
      now apply (Permutation_in _ (Permutation_sym Hperm)).
Qed.

(** ** C9: the feed *)

Lemma feed_join_in db r :
  In r (feed_join db) ->
  In (fr_event r) (feed_events db) /\
  exists u, In u (users db) /\
            u_id u = f_user_id (fr_event r) /\
            fr_name r = u_name u /\
            fr_avatar_url r = u_avatar_url u.
Proof.
  unfold feed_join. intros H. apply in_flat_map in H.
  destruct H as (f & Hf & H). apply in_map_iff in H.
  destruct H as (u & <- & Hu). apply filter_In in Hu.
  destruct Hu as [Hu Hid]. cbn. split; [exact Hf|].
  exists u. repeat split; [exact Hu | now apply Z.eqb_eq].
Qed.

(** C9, refuted as stated.  [created_at] has a resolution of one second.
    After two goals created within the same second the feed holds two
    events with the same [created_at]; the handler returns both, and no
    result it can return is strictly descending. *)
Lemma feed_same_second_not_strictly_descending :
  (exists events, get_feed same_second_db events) /\
  (forall events, get_feed same_second_db events ->
                  List.length events = 2%nat /\ ~ Sorted newer events).
Proof.
  split.
  - eexists. exists (feed_join same_second_db). split; [|reflexivity].
    split; [reflexivity|]. repeat constructor.
  - intros events (sorted & [Hperm _] & ->).
    apply Permutation_length_2_inv in Hperm.
    destruct Hperm as [-> | ->]; (split; [reflexivity|]);
      intros H; inversion H as [|a l _ Hhd]; subst;
      inversion Hhd as [|b l' Hnewer]; subst; discriminate Hnewer.
Qed.

(** C9, amended.  In every state [get_feed] has a result, and every result
    lists at most 20 feed events in non-increasing order of [created_at]
    (events written within the same second carry equal timestamps), each
    with the display name and the avatar of the account that triggered
    it. *)
Theorem get_feed_top20_newest_first :
  forall (db : DB),
    (exists events, get_feed db events) /\
    (forall events,
        get_feed db events ->
        (List.length events <= 20)%nat /\
        Sorted (desc feed_below) events /\
        (forall r, In r events ->
           In (fr_event r) (feed_events db) /\
           exists u, In u (users db) /\
                     u_id u = f_user_id (fr_event r) /\
                     fr_name r = u_name u /\
                     fr_avatar_url r = u_avatar_url u)).
Proof.
  intros db. split.
  - eexists. exists (sort_desc feed_below (feed_join db)). split; [|reflexivity].
    apply sort_desc_ok. intros a b. apply string_ltb_asym.
  - intros events (sorted & [Hperm Hsorted] & ->).
    split; [apply limit_length|]. split; [now apply Sorted_firstn|].
    intros r Hr. apply limit_incl in Hr.
    apply (Permutation_in _ (Permutation_sym Hperm)) in Hr.
    now apply feed_join_in.
Qed.

Lemma get_feed_top20_newest_first_witness :
  let events :=
    [ mkFeedRow (mkFeedEvent 1 1 goal_created (GoalData 1 "Bike")
                             "2024-05-02 07:00:00") (Some "Alice") None;
      mkFeedRow (mkFeedEvent 2 2 goal_created (GoalData 2 "Laptop")
                             "2024-05-02 07:00:00")
                (Some "Bob") (Some "https://example.com/bob.png") ] in
  (List.length events <= 20)%nat /\
  Sorted (desc feed_below) events /\
  (forall r, In r events ->
     In (fr_event r) (feed_events same_second_db) /\
     exists u, In u (users same_second_db) /\
               u_id u = f_user_id (fr_event r) /\
               fr_name r = u_name u /\
               fr_avatar_url r = u_avatar_url u).
Proof.
  cbv zeta.
  apply (proj2 (get_feed_top20_newest_first same_second_db)).
  exists (feed_join same_second_db). split; [|reflexivity].
  split; [reflexivity|]. repeat constructor.
Defined.

(** ** C10: what the mutating handlers leave alone *)

(** C10.  A successful [create_goal] leaves the table of accounts and the
    table of sacrifices as they were and keeps every goal row that was
    there, adding one row after them; a successful [log_sacrifice] leaves
    the table of goals as it was. *)
Theorem mutating_handlers_frame :
  forall (clk : Clock) (user_id : Z) (db : DB),
    (forall goal r db',
        create_goal clk goal user_id db = (Ok r, db') ->
        users db' = users db /\
        sacrifices db' = sacrifices db /\
        exists g, goals db' = (goals db ++ [g])%list) /\
    (forall sacrifice r db',
        log_sacrifice clk sacrifice user_id db = (Ok r, db') ->
        goals db' = goals db).
Proof.
  intros clk user_id db. split.
  - intros goal r db' Hcall. rewrite create_goal_eq in Hcall.
    destruct (to_real (gc_target_amount goal)) as [target|]; [|discriminate].
    injection Hcall as <- <-. cbn. repeat split. eexists. reflexivity.
  - intros sacrifice r db' Hcall. rewrite log_sacrifice_eq in Hcall.
    destruct (sacrifice_by_title user_id (sc_title sacrifice) db);
      [|destruct (to_real (sc_amount sacrifice)); [|discriminate]];
      injection Hcall as <- <-; reflexivity.
Qed.

Lemma mutating_handlers_frame_witness :
  let clk := at_time "2024-05-04 12:00:00" in
  let bike := mkGoalCreate "Bike" 300%float default_category in
  (users (snd (create_goal clk bike 1 coffee_db)) = users coffee_db /\
   sacrifices (snd (create_goal clk bike 1 coffee_db)) = sacrifices coffee_db /\
   exists g, goals (snd (create_goal clk bike 1 coffee_db)) =
             (goals coffee_db ++ [g])%list) /\
  goals (snd (log_sacrifice clk packed_lunch 1 coffee_db)) = goals coffee_db.
Proof.
  cbv zeta.
  destruct (mutating_handlers_frame (at_time "2024-05-04 12:00:00") 1 coffee_db)
    as [Hgoal Hlog].
  split.
  - apply (Hgoal (mkGoalCreate "Bike" 300%float default_category)
                  (mkGoalCreated 2 "Bike")).
    reflexivity.
  - apply (Hlog packed_lunch (mkSacrificeLogged "Sacrifice logged" 1)).
    reflexivity.
Defined.

(** ** Sacrifice rows over time *)

Lemma handle_keeps_sacrifice_rows clk req db :
  exists added,
    map sacrifice_key (sacrifices (snd (handle clk req db))) =
    (map sacrifice_key (sacrifices db) ++ added)%list.
Proof.
  destruct req as [info | goal uid | sacrifice uid]; unfold handle.
  - rewrite google_callback_eq. exists [].
    destruct (user_by_sub (ui_sub info) db); [now rewrite app_nil_r|].
    destruct (ui_email info); [|now rewrite app_nil_r].
    destruct (existsb _ (users db)); now rewrite app_nil_r.
  - rewrite create_goal_eq. exists [].
    destruct (to_real (gc_target_amount goal)); now rewrite app_nil_r.
  - rewrite log_sacrifice_eq.
    destruct (sacrifice_by_title uid (sc_title sacrifice) db) as [row|].
    + exists []. cbn [snd sacrifices]. rewrite app_nil_r, map_map.
      apply map_ext. intros s. destruct (s_id s =? s_id row); reflexivity.
    + destruct (to_real (sc_amount sacrifice)) as [amount|].
      * eexists. cbn [snd sacrifices]. now rewrite map_app.
      * exists []. now rewrite app_nil_r.
Qed.

(** Once written, the id, the owner, the title, the amount and the
    creation time of a sacrifice row never change, whatever requests
    follow: the table only grows at its end. *)
Lemma serve_keeps_sacrifice_rows reqs : forall db,
  exists added,
    map sacrifice_key (sacrifices (serve reqs db)) =
    (map sacrifice_key (sacrifices db) ++ added)%list.
Proof.
  induction reqs as [|[clk req] reqs IH]; intros db; cbn [serve].
  - exists []. now rewrite app_nil_r.
  - destruct (IH (snd (handle clk req db))) as (added2 & H2).
    destruct (handle_keeps_sacrifice_rows clk req db) as (added1 & H1).
    exists (added1 ++ added2)%list. now rewrite H2, H1, app_assoc.
Qed.

(** ** Atomicity and the feed *)

(** A request that fails leaves the database as it was.  A request that
    succeeds appends exactly one event to the feed when it creates a goal
    or logs a sacrifice, and none when it is a login; events already in
    the feed are never changed or removed. *)
Lemma handle_all_or_nothing_one_event clk req db :
  (fst (handle clk req db) = false -> snd (handle clk req db) = db) /\
  exists added,
    feed_events (snd (handle clk req db)) = (feed_events db ++ added)%list /\
    List.length added =
      match req with
      | Login _ => 0%nat
      | _ => if fst (handle clk req db) then 1%nat else 0%nat
      end.
Proof.
  destruct req as [info | goal uid | sacrifice uid]; unfold handle.
  - rewrite google_callback_eq.
    destruct (user_by_sub (ui_sub info) db);
      [|destruct (ui_email info); [destruct (existsb _ (users db))|]];
      cbn [fst snd succeeded feed_events];
      (split; [try reflexivity; discriminate|]);
      exists []; now rewrite app_nil_r.
  - rewrite create_goal_eq.
    destruct (to_real (gc_target_amount goal));
      cbn [fst snd succeeded feed_events].
    + split; [discriminate|]. eexists. split; reflexivity.
    + split; [reflexivity|]. exists []. now rewrite app_nil_r.
  - rewrite log_sacrifice_eq.
    destruct (sacrifice_by_title uid (sc_title sacrifice) db);
      [|destruct (to_real (sc_amount sacrifice))];
      cbn [fst snd succeeded feed_events].
    + split; [discriminate|]. eexists. split; reflexivity.
    + split; [discriminate|]. eexists. split; reflexivity.
    + split; [reflexivity|]. exists []. now rewrite app_nil_r.
Qed.

(** ** Primary keys stay unique *)

Lemma NoDup_snoc {A} (l : list A) x : NoDup l -> ~ In x l -> NoDup (l ++ [x]).
Proof.
  intros Hl Hx. apply NoDup_app; [exact Hl | repeat constructor; exact (fun H => H) |].
  intros y Hy [<- | []]. contradiction.
Qed.

Lemma credit_users_ids amount user_id us :
  map u_id (credit_users amount user_id us) = map u_id us.
Proof.
  unfold credit_users. rewrite map_map. apply map_ext. intros u.
  destruct (u_id u =? user_id); reflexivity.
Qed.

Lemma handle_ids_unique clk req db :
  ids_unique db -> ids_unique (snd (handle clk req db)).
Proof.
  intros (Hu & Hg & Hs & Hf).
  destruct req as [info | goal uid | sacrifice uid]; unfold handle.
  - rewrite google_callback_eq.
    destruct (user_by_sub (ui_sub info) db); [now repeat split|].
    destruct (ui_email info) as [email|]; [|now repeat split].
    destruct (existsb _ (users db)); [now repeat split|].
    repeat split; cbn [snd users goals sacrifices feed_events]; trivial.
    rewrite map_app. apply NoDup_snoc; [exact Hu | apply next_rowid_fresh].
  - rewrite create_goal_eq.
    destruct (to_real (gc_target_amount goal)); [|now repeat split].
    repeat split; cbn [snd users goals sacrifices feed_events]; trivial;
      rewrite map_app; apply NoDup_snoc; trivial; apply next_rowid_fresh.
  - rewrite log_sacrifice_eq.
    destruct (sacrifice_by_title uid (sc_title sacrifice) db) as [row|];
      [|destruct (to_real (sc_amount sacrifice)); [|now repeat split]];
      repeat split; cbn [snd users goals sacrifices feed_events]; trivial;
      try (rewrite credit_users_ids; exact Hu);
      try (rewrite map_app; apply NoDup_snoc; trivial; apply next_rowid_fresh).
    rewrite map_map.
    erewrite map_ext; [exact Hs|].
    intros s. cbn. destruct (s_id s =? s_id row); reflexivity.
Qed.

(** Whatever requests are served, ids are never reused: a database whose
    primary keys are pairwise distinct in each of the four tables keeps
    them so. *)
Theorem serve_ids_unique :
  forall (reqs : list (Clock * Request)) (db : DB),
    ids_unique db -> ids_unique (serve reqs db).
Proof.
  induction reqs as [|[clk req] reqs IH]; intros db H; [exact H|].
  cbn [serve]. apply IH. now apply handle_ids_unique.
Qed.

(** ** One sacrifice row per account and title *)

Lemma handle_titles_unique clk req db :
  titles_unique db -> titles_unique (snd (handle clk req db)).
Proof.
  unfold titles_unique. intros H.
  destruct req as [info | goal uid | sacrifice uid]; unfold handle.
  - rewrite google_callback_eq.
    destruct (user_by_sub (ui_sub info) db); [exact H|].
    destruct (ui_email info); [|exact H].
    destruct (existsb _ (users db)); exact H.
  - rewrite create_goal_eq.
    destruct (to_real (gc_target_amount goal)); exact H.
  - rewrite log_sacrifice_eq.
    destruct (sacrifice_by_title uid (sc_title sacrifice) db) as [row|] eqn:Hrow.
    + cbn [snd sacrifices]. rewrite map_map.
      erewrite map_ext; [exact H|].
      intros s. destruct (s_id s =? s_id row); reflexivity.
    + destruct (to_real (sc_amount sacrifice)) as [amount|]; [|exact H].
      cbn [snd sacrifices]. rewrite map_app. apply NoDup_snoc; [exact H|].
      cbn. intros Hin. apply in_map_iff in Hin.
      destruct Hin as (s & Hkey & Hs).
      unfold sacrifice_by_title in Hrow.
      pose proof (find_none _ _ Hrow s Hs) as Hfalse. cbn in Hfalse.
      injection Hkey as Huid Htitle.
      now rewrite Huid, Htitle, Z.eqb_refl, String.eqb_refl in Hfalse.
Qed.

(** The find-or-create of [log_sacrifice] never makes a second row for a
    title an account already has: a table with at most one row per
    account and title keeps that property under every sequence of
    requests. *)
Theorem serve_titles_unique :
  forall (reqs : list (Clock * Request)) (db : DB),
    titles_unique db -> titles_unique (serve reqs db).
Proof.
  induction reqs as [|[clk req] reqs IH]; intros db H; [exact H|].
  cbn [serve]. apply IH. now apply handle_titles_unique.
Qed.

(** ** Feed events keep pointing at their rows *)

Lemma NoDup_map_eq {A B} (f : A -> B) l x y :
  NoDup (map f l) -> In x l -> In y l -> f x = f y -> x = y.
Proof.
  induction l as [|z l IH]; cbn; [tauto|].
  intros Hnd Hx Hy Hf. inversion Hnd as [|? ? Hz Hl]; subst.
  destruct Hx as [-> | Hx], Hy as [-> | Hy]; trivial.
  - exfalso. apply Hz. rewrite Hf. now apply in_map.
  - exfalso. apply Hz. rewrite <- Hf. now apply in_map.
  - now apply IH.
Qed.

Lemma rows_kept_refl db : rows_kept db db.
Proof. split; [trivial|]. intros s Hs. exists s. repeat split; trivial. lia. Qed.

Lemma event_refers_kept db db' ev :
  rows_kept db db' -> event_refers db ev -> event_refers db' ev.
Proof.
  intros [Hg Hs]. unfold event_refers.
  destruct (f_event_data ev) as [gid title | sid title days].
  - intros (Ht & g & Hin & Hrest). split; [exact Ht|].
    exists g. split; [now apply Hg | exact Hrest].
  - intros (Ht & s & Hin & Hid & Htitle & Huser & Hdays). split; [exact Ht|].
    destruct (Hs s Hin) as (s' & Hin' & Hid' & Htitle' & Huser' & Hdays').
    exists s'. repeat split; try congruence. lia.
Qed.

Lemma sacrifice_by_title_some user_id title db row :
  sacrifice_by_title user_id title db = Some row ->
  In row (sacrifices db) /\ s_user_id row = user_id /\ s_title row = title.
Proof.
  unfold sacrifice_by_title. intros H. apply find_some in H.
  destruct H as [Hin Hp]. apply andb_prop in Hp. destruct Hp as [Hu Ht].
  split; [exact Hin|]. split; [now apply Z.eqb_eq | now apply String.eqb_eq].
Qed.

Lemma handle_rows_kept clk req db :
  NoDup (map s_id (sacrifices db)) -> rows_kept db (snd (handle clk req db)).
Proof.
  intros Hnd.
  destruct req as [info | goal uid | sacrifice uid]; unfold handle.
  - rewrite google_callback_eq.
    destruct (user_by_sub (ui_sub info) db); [apply rows_kept_refl|].
    destruct (ui_email info); [|apply rows_kept_refl].
    destruct (existsb _ (users db)); [apply rows_kept_refl|].
    split; cbn [snd goals sacrifices];
      [trivial | apply (proj2 (rows_kept_refl db))].
  - rewrite create_goal_eq.
    destruct (to_real (gc_target_amount goal)); [|apply rows_kept_refl].
    split; cbn [snd goals sacrifices].
    + intros g Hg. apply in_or_app. now left.
    + apply (proj2 (rows_kept_refl db)).
  - rewrite log_sacrifice_eq.
    destruct (sacrifice_by_title uid (sc_title sacrifice) db) as [row|] eqn:Hrow.
    + apply sacrifice_by_title_some in Hrow. destruct Hrow as (Hrow & _ & _).
      split; cbn [snd goals sacrifices]; [trivial|].
      intros s Hs.
      exists (if s_id s =? s_id row
              then set_days (s_days_count row + 1) (now_isoformat clk) s else s).
      split; [apply in_map_iff; now exists s|].
      destruct (s_id s =? s_id row) eqn:Hid; cbn; repeat split; try lia.
      apply Z.eqb_eq in Hid.
      rewrite (NoDup_map_eq s_id _ s row Hnd Hs Hrow Hid). lia.
    + destruct (to_real (sc_amount sacrifice)); [|apply rows_kept_refl].
      split; cbn [snd goals sacrifices]; [trivial|].
      intros s Hs. exists s. repeat split; try lia. apply in_or_app. now left.
Qed.

Lemma handle_feed_refers clk req db :
  ids_unique db -> feed_refers db -> feed_refers (snd (handle clk req db)).
Proof.
  intros (_ & _ & Hnd & _) Hfeed. unfold feed_refers in *.
  pose proof (handle_rows_kept clk req db Hnd) as Hkept.
  assert (Hold : Forall (event_refers (snd (handle clk req db))) (feed_events db)).
  { eapply Forall_impl; [|exact Hfeed].
    intros ev. now apply event_refers_kept. }
  clear Hfeed Hkept. revert Hold.
  destruct req as [info | goal uid | sacrifice uid]; unfold handle.
  - rewrite google_callback_eq.
    destruct (user_by_sub (ui_sub info) db); [trivial|].
    destruct (ui_email info); [|trivial].
    destruct (existsb _ (users db)); trivial.
  - rewrite create_goal_eq.
    destruct (to_real (gc_target_amount goal)) as [target|]; [|trivial].
    cbn [snd feed_events]. intros Hold. apply Forall_app. split; [exact Hold|].
    constructor; [|constructor]. split; [reflexivity|].
    exists (goal_row clk goal uid target db).
    split; [cbn; apply in_or_app; right; now left | repeat split].
  - rewrite log_sacrifice_eq.
    destruct (sacrifice_by_title uid (sc_title sacrifice) db) as [row|] eqn:Hrow.
    + apply sacrifice_by_title_some in Hrow. destruct Hrow as (Hrow & Hu & Ht).
      cbn [snd feed_events]. intros Hold. apply Forall_app. split; [exact Hold|].
      constructor; [|constructor]. split; [reflexivity|].
      exists (set_days (s_days_count row + 1) (now_isoformat clk) row).
      split.
      * cbn. apply in_map_iff. exists row. now rewrite Z.eqb_refl.
      * cbn. repeat split; trivial. lia.
    + destruct (to_real (sc_amount sacrifice)) as [amount|]; [|trivial].
      cbn [snd feed_events]. intros Hold. apply Forall_app. split; [exact Hold|].
      constructor; [|constructor]. split; [reflexivity|].
      exists (sacrifice_row clk sacrifice uid amount db).
      split; [cbn; apply in_or_app; right; now left|].
      cbn. repeat split. lia.
Qed.

(** Every feed event keeps describing a row that exists.  In a database
    with distinct primary keys where each event names an existing goal or
    sacrifice with the event's title and owner (and, for a sacrifice, a
    repetition count the row has reached), this still holds after any
    sequence of requests, for the old events and for the new ones. *)
Theorem serve_feed_refers :
  forall (reqs : list (Clock * Request)) (db : DB),
    ids_unique db -> feed_refers db -> feed_refers (serve reqs db).
Proof.
  induction reqs as [|[clk req] reqs IH]; intros db Hids Hfeed; [exact Hfeed|].
  cbn [serve]. apply IH; [now apply handle_ids_unique|].
  now apply handle_feed_refers.
Qed.

(** ** The streak and the repetition counts move together *)

Lemma days_of_app user_id l l' :
  days_of user_id (l ++ l') = days_of user_id l + days_of user_id l'.
Proof.
  unfold days_of. induction l as [|s l IH]; cbn; [reflexivity|].
  destruct (s_user_id s =? user_id); cbn; lia.
Qed.

Lemma bump_other_ids row days stamp l :
  ~ In (s_id row) (map s_id l) ->
  map (fun s => if s_id s =? s_id row then set_days days stamp s else s) l = l.
Proof.
  induction l as [|s l IH]; cbn; [reflexivity|].
  intros Hnot. destruct (s_id s =? s_id row) eqn:Hid.
  - apply Z.eqb_eq in Hid. exfalso. apply Hnot. now left.
  - f_equal. apply IH. tauto.
Qed.

Lemma days_of_bump user_id row stamp l :
  NoDup (map s_id l) -> In row l ->
  days_of user_id
    (map (fun s => if s_id s =? s_id row
                   then set_days (s_days_count row + 1) stamp s else s) l) =
  days_of user_id l + (if s_user_id row =? user_id then 1 else 0).
Proof.
  induction l as [|s l IH]; cbn [map In]; [tauto|].
  intros Hnd Hin. inversion Hnd as [|? ? Hs Hl]; subst.
  destruct (s_id s =? s_id row) eqn:Hid.
  - apply Z.eqb_eq in Hid.
    assert (s = row) as ->.
    { destruct Hin as [-> | Hin]; [reflexivity|].
      exfalso. apply Hs. rewrite Hid. now apply in_map. }
    rewrite bump_other_ids by exact Hs.
    unfold days_of. cbn.
    destruct (s_user_id row =? user_id); cbn; lia.
  - destruct Hin as [-> | Hin]; [now rewrite Z.eqb_refl in Hid|].
    specialize (IH Hl Hin). unfold days_of in *. cbn.
    destruct (s_user_id s =? user_id); cbn; lia.
Qed.

Lemma handle_streak_and_days clk req db user_id u :
  NoDup (map s_id (sacrifices db)) ->
  user_by_id user_id db = Some u ->
  u_current_streak (user_after clk req db user_id u)
    - days_total user_id (snd (handle clk req db)) =
  u_current_streak u - days_total user_id db.
Proof.
  intros Hnd Hu. unfold user_after.
  change (days_total user_id) with (fun d => days_of user_id (sacrifices d)).
  cbv beta.
  destruct req as [info | goal uid | sacrifice uid]; unfold handle.
  - rewrite google_callback_eq.
    destruct (user_by_sub (ui_sub info) db); [reflexivity|].
    destruct (ui_email info); [|reflexivity].
    destruct (existsb _ (users db)); reflexivity.
  - rewrite create_goal_eq.
    destruct (to_real (gc_target_amount goal)); reflexivity.
  - rewrite log_sacrifice_eq.
    destruct (sacrifice_by_title uid (sc_title sacrifice) db) as [row|] eqn:Hrow.
    + apply sacrifice_by_title_some in Hrow. destruct Hrow as (Hrow & Hown & _).
      cbn [fst snd succeeded sacrifices andb].
      rewrite (days_of_bump user_id row _ _ Hnd Hrow), Hown.
      destruct (uid =? user_id); cbn; lia.
    + destruct (to_real (sc_amount sacrifice)) as [amount|];
        cbn [fst snd succeeded sacrifices andb]; [|lia].
      rewrite days_of_app. unfold days_of at 2. cbn.
      destruct (uid =? user_id); cbn; lia.
Qed.

(** Each successful log raises the streak of the account by 1 and the
    repetition count of exactly one of its sacrifices by 1 (or creates one
    with count 1), and nothing else touches either: the difference
    between the streak of an account and the sum of the repetition counts
    of its sacrifices is the same after any sequence of requests. *)
Theorem serve_streak_follows_days_count :
  forall (reqs : list (Clock * Request)) (db : DB) (user_id : Z) (u : User),
    ids_unique db ->
    user_by_id user_id db = Some u ->
    exists u',
      user_by_id user_id (serve reqs db) = Some u' /\
      u_current_streak u' - days_total user_id (serve reqs db) =
      u_current_streak u - days_total user_id db.
Proof.
  induction reqs as [|[clk req] reqs IH]; intros db user_id u Hids Hu.
  - exists u. split; [exact Hu | reflexivity].
  - cbn [serve].
    destruct (IH _ user_id _ (handle_ids_unique clk req db Hids)
                 (handle_user clk req db user_id u Hu)) as (u' & Hu' & Heq).
    exists u'. split; [exact Hu'|]. rewrite Heq.
    apply handle_streak_and_days; [apply Hids | exact Hu].
Qed.

(** ** Accounts: find or create *)

Lemma user_by_id_fresh db u :
  u_id u = next_rowid (map u_id (users db)) ->
  find (fun x => u_id x =? u_id u) (users db ++ [u]) = Some u.
Proof.
  intros Hid. rewrite find_app_none; [now rewrite Z.eqb_refl|].
  destruct (find (fun x => u_id x =? u_id u) (users db)) as [x|] eqn:Hx;
    [|reflexivity].
  apply find_some in Hx. destruct Hx as [Hin Heq]. apply Z.eqb_eq in Heq.
  exfalso. apply (next_rowid_fresh (map u_id (users db))).
  rewrite <- Hid, <- Heq. now apply in_map.
Qed.

(** A first login creates the account, and [get_me] then finds it.  When
    the subject has no account and the call succeeds, exactly one row is
    appended to the accounts, under an id that was not in use, with the
    subject, email, name and picture of Google's answer, total saved 0 and
    streak 0; the other tables are untouched, and [get_me] with the
    returned id yields that row. *)
Theorem first_login_creates_account :
  forall (clk : Clock) (info : UserInfo) (db db' : DB) (user_id : Z),
    user_by_sub (ui_sub info) db = None ->
    google_callback clk info db = (Ok user_id, db') ->
    exists u,
      get_me user_id db' = (Ok u, db') /\
      users db' = (users db ++ [u])%list /\
      goals db' = goals db /\
      sacrifices db' = sacrifices db /\
      feed_events db' = feed_events db /\
      u_id u = user_id /\
      ~ In user_id (map u_id (users db)) /\
      u_google_sub u = ui_sub info /\
      Some (u_email u) = ui_email info /\
      u_name u = ui_name info /\
      u_avatar_url u = ui_picture info /\
      u_total_saved u = Some 0%float /\
      u_current_streak u = 0.
Proof.
  intros clk info db db' user_id Hnone Hcall.
  rewrite google_callback_eq, Hnone in Hcall.
  destruct (ui_email info) as [email|] eqn:Hemail; [|discriminate].
  destruct (existsb _ (users db)); [discriminate|].
  injection Hcall as <- <-.
  exists (user_row clk info email db).
  split.
  - rewrite get_me_eq. unfold user_by_id. cbn [users].
    pose proof (user_by_id_fresh db (user_row clk info email db) eq_refl) as H.
    change (u_id (user_row clk info email db))
      with (next_rowid (map u_id (users db))) in H.
    now rewrite H.
  - repeat split. apply next_rowid_fresh.
Qed.

(** Accounts are matched by subject alone.  Once a login of a subject has
    succeeded, every later login of that subject returns the same account
    id and leaves the database as it is, whatever email, name or picture
    Google's answer carries by then. *)
Theorem login_again_same_account :
  forall (clk clk' : Clock) (info info' : UserInfo) (db db' : DB) (user_id : Z),
    google_callback clk info db = (Ok user_id, db') ->
    ui_sub info' = ui_sub info ->
    google_callback clk' info' db' = (Ok user_id, db').
Proof.
  intros clk clk' info info' db db' user_id Hcall Hsub.
  rewrite google_callback_eq in Hcall. rewrite google_callback_eq, Hsub.
  destruct (user_by_sub (ui_sub info) db) as [u|] eqn:Hu.
  - injection Hcall as <- <-. now rewrite Hu.
  - destruct (ui_email info) as [email|]; [|discriminate].
    destruct (existsb _ (users db)); [discriminate|].
    injection Hcall as <- <-.
    unfold user_by_sub in *. cbn [users].
    rewrite (find_app_none _ _ _ Hu). cbn. now rewrite String.eqb_refl.
Qed.

(** A first login is refused when Google's answer has no email, or an
    email that an account of another subject already uses: the insert
    violates a constraint of the table, [IntegrityError] is raised and no
    account is created. *)
Theorem first_login_without_usable_email_fails :
  forall (clk : Clock) (info : UserInfo) (db : DB),
    user_by_sub (ui_sub info) db = None ->
    (ui_email info = None \/
     exists u, In u (users db) /\ ui_email info = Some (u_email u)) ->
    google_callback clk info db = (Err IntegrityError, db).
Proof.
  intros clk info db Hnone Hemail.
  rewrite google_callback_eq, Hnone.
  destruct Hemail as [-> | (u & Hin & ->)]; [reflexivity|].
  replace (existsb _ (users db)) with true; [reflexivity|].
  symmetry. apply existsb_exists. exists u. split; [exact Hin|].
  now rewrite String.eqb_refl.
Qed.

Lemma credit_users_subs amount user_id us :
  map u_google_sub (credit_users amount user_id us) = map u_google_sub us.
Proof.
  unfold credit_users. rewrite map_map. apply map_ext. intros u.
  destruct (u_id u =? user_id); reflexivity.
Qed.

Lemma credit_users_emails amount user_id us :
  map u_email (credit_users amount user_id us) = map u_email us.
Proof.
  unfold credit_users. rewrite map_map. apply map_ext. intros u.
  destruct (u_id u =? user_id); reflexivity.
Qed.

Lemma handle_accounts_unique clk req db :
  accounts_unique db -> accounts_unique (snd (handle clk req db)).
Proof.
  intros [Hsub Hemail].
  destruct req as [info | goal uid | sacrifice uid]; unfold handle.
  - rewrite google_callback_eq.
    destruct (user_by_sub (ui_sub info) db) eqn:Hnone; [now split|].
    destruct (ui_email info) as [email|]; [|now split].
    destruct (existsb _ (users db)) eqn:Htaken; [now split|].
    split; cbn [snd users]; rewrite map_app; apply NoDup_snoc; trivial; cbn;
      intros Hin; apply in_map_iff in Hin; destruct Hin as (u & Heq & Hu);
      assert (existsb (fun u => (u_email u =? email)%string
                                || (u_google_sub u =? ui_sub info)%string)
                      (users db) = true) as Hex;
      try congruence; apply existsb_exists; exists u; (split; [exact Hu|]);
      rewrite Heq, String.eqb_refl; [apply orb_true_r | reflexivity].
  - rewrite create_goal_eq.
    destruct (to_real (gc_target_amount goal)); now split.
  - rewrite log_sacrifice_eq.
    destruct (sacrifice_by_title uid (sc_title sacrifice) db);
      [|destruct (to_real (sc_amount sacrifice)); [|now split]];
      split; cbn [snd users];
      rewrite ?credit_users_subs, ?credit_users_emails; trivial.
Qed.

(** No request makes two accounts share a Google subject or an email
    address: a table of accounts where both are pairwise distinct keeps
    them so under every sequence of requests. *)
Theorem serve_accounts_unique :
  forall (reqs : list (Clock * Request)) (db : DB),
    accounts_unique db -> accounts_unique (serve reqs db).
Proof.
  induction reqs as [|[clk req] reqs IH]; intros db H; [exact H|].
  cbn [serve]. apply IH. now apply handle_accounts_unique.
Qed.

(** ** What [LIMIT] cuts off *)

Lemma string_not_below_trans a b c :
  String.ltb a b = false -> String.ltb b c = false -> String.ltb a c = false.
Proof.
  unfold String.ltb. intros Hab Hbc.
  destruct (String.compare a c) eqn:Hac; trivial.
  apply OrderedTypeEx.String_as_OT.cmp_lt in Hac.
  destruct (String.compare a b) eqn:Eab; try discriminate.
  - apply OrderedTypeEx.String_as_OT.cmp_eq in Eab. subst b.
    apply OrderedTypeEx.String_as_OT.cmp_lt in Hac.
    unfold OrderedTypeEx.String_as_OT.cmp in Hac. now rewrite Hac in Hbc.
  - assert (String.compare b a = Lt) as Hba.
    { rewrite String.compare_antisym, Eab. reflexivity. }
    apply OrderedTypeEx.String_as_OT.cmp_lt in Hba.
    pose proof (OrderedTypeEx.String_as_OT.lt_trans _ _ _ Hba Hac) as Hbc'.
    apply OrderedTypeEx.String_as_OT.cmp_lt in Hbc'.
    unfold OrderedTypeEx.String_as_OT.cmp in Hbc'. now rewrite Hbc' in Hbc.
Qed.

Ltac fold_pos_compare :=
  repeat match goal with
  | |- context [PosDef.Pos.compare_cont Eq ?a ?b] =>
      change (PosDef.Pos.compare_cont Eq a b) with (Pos.compare a b)
  | H : context [PosDef.Pos.compare_cont Eq ?a ?b] |- _ =>
      change (PosDef.Pos.compare_cont Eq a b) with (Pos.compare a b) in H
  end.

Lemma SFcompare_not_Lt_trans a b c :
  SFcompare a b <> None -> SFcompare b c <> None ->
  SFcompare a b <> Some Lt -> SFcompare b c <> Some Lt ->
  SFcompare a c <> Some Lt.
Proof.
  destruct a as [sa|sa| |sa ma ea], b as [sb|sb| |sb mb eb],
    c as [sc|sc| |sc mc ec]; cbn; try congruence;
    repeat match goal with s : bool |- _ => destruct s end; cbn;
    try congruence; fold_pos_compare; intros _ _ Hab Hbc;
    destruct (Z.compare_spec ea eb), (Z.compare_spec eb ec), (Z.compare_spec ea ec);
    try congruence; try lia; subst;
    destruct (Pos.compare_spec ma mb), (Pos.compare_spec mb mc), (Pos.compare_spec ma mc);
    cbn in *; try congruence; try lia.
Qed.

Lemma not_nan_compare x y :
  PrimFloat.is_nan x = false -> PrimFloat.is_nan y = false ->
  SFcompare (Prim2SF x) (Prim2SF y) <> None.
Proof.
  unfold PrimFloat.is_nan. rewrite !eqb_spec. unfold SFeqb.
  destruct (Prim2SF x) as [| | |], (Prim2SF y) as [| | |]; cbn;
    congruence.
Qed.

Lemma float_not_below_trans x y z :
  PrimFloat.is_nan x = false -> PrimFloat.is_nan y = false ->
  PrimFloat.is_nan z = false ->
  (x <? y)%float = false -> (y <? z)%float = false -> (x <? z)%float = false.
Proof.
  intros Hx Hy Hz. rewrite !ltb_spec. unfold SFltb. intros Hxy Hyz.
  pose proof (SFcompare_not_Lt_trans _ _ _ (not_nan_compare x y Hx Hy)
                (not_nan_compare y z Hy Hz)) as Htrans.
  destruct (SFcompare (Prim2SF x) (Prim2SF z)) as [[]|]; trivial.
  exfalso. apply Htrans; trivial.
  - destruct (SFcompare (Prim2SF x) (Prim2SF y)) as [[]|]; congruence.
  - destruct (SFcompare (Prim2SF y) (Prim2SF z)) as [[]|]; congruence.
Qed.

Lemma real_not_below_trans a b c :
  real_valid a = true -> real_valid b = true -> real_valid c = true ->
  real_ltb a b = false -> real_ltb b c = false -> real_ltb a c = false.
Proof.
  destruct a as [x|], b as [y|], c as [z|]; cbn; try congruence.
  intros Hx Hy Hz. apply float_not_below_trans; now apply negb_true_iff.
Qed.

Section LimitFacts.

Context {A : Type} (below : A -> A -> bool) (valid : A -> Prop).
Hypothesis not_below_trans : forall a b c,
  valid a -> valid b -> valid c ->
  below a b = false -> below b c = false -> below a c = false.

Lemma Sorted_desc_all x l :
  valid x -> Forall valid l -> Sorted (desc below) (x :: l) ->
  Forall (desc below x) l.
Proof.
  induction l as [|y l IH]; intros Hx Hl Hs; [constructor|].
  inversion Hs as [|? ? Hs' Hhd]; subst. inversion Hhd as [|? ? Hxy]; subst.
  inversion Hl as [|? ? Hy Hl']; subst.
  constructor; [exact Hxy|]. apply IH; trivial.
  inversion Hs' as [|? ? Hs'' Hhd']; subst. constructor; [exact Hs''|].
  destruct Hhd' as [|z l' Hyz]; constructor.
  inversion Hl' as [|? ? Hz _]; subst.
  now apply (not_below_trans x y z).
Qed.

Lemma Sorted_desc_split l1 : forall l2,
  Forall valid (l1 ++ l2) -> Sorted (desc below) (l1 ++ l2) ->
  forall k d, In k l1 -> In d l2 -> below k d = false.
Proof.
  induction l1 as [|x l1 IH]; intros l2 Hv Hs k d Hk Hd; [destruct Hk|].
  cbn in Hv, Hs. inversion Hv as [|? ? Hx Hv']; subst.
  destruct Hk as [<- | Hk].
  - pose proof (Sorted_desc_all x _ Hx Hv' Hs) as Hall.
    rewrite Forall_forall in Hall. apply Hall. apply in_or_app. now right.
  - apply (IH l2); trivial. now inversion Hs.
Qed.

(** [ORDER BY ... DESC LIMIT n] keeps rows of the largest keys: the rows
    kept and the rows cut off make up the selection, no row cut off has a
    larger key than a row kept, and nothing is cut off when fewer than
    [n] rows are returned. *)
Lemma limit_keeps_largest n rows sorted :
  Forall valid rows ->
  order_by_desc below rows sorted ->
  Permutation rows (limit n sorted ++ skipn n sorted) /\
  (forall k d, In k (limit n sorted) -> In d (skipn n sorted) ->
               below k d = false) /\
  ((List.length (limit n sorted) < n)%nat -> skipn n sorted = []).
Proof.
  intros Hv [Hperm Hs]. unfold limit.
  split; [now rewrite firstn_skipn|]. split.
  - apply Sorted_desc_split; rewrite firstn_skipn; trivial.
    rewrite Forall_forall in *. intros x Hx. apply Hv.
    now apply (Permutation_in _ (Permutation_sym Hperm)).
  - intros Hlen. apply skipn_all2. rewrite length_firstn in Hlen. lia.
Qed.

End LimitFacts.

(** ** The most recent events, the top savers *)

(** [get_feed] returns the most recent events.  The entries returned and
    the entries left out make up the join of the feed with the accounts;
    no entry left out is newer than an entry returned; and when fewer
    than 20 entries are returned nothing is left out. *)
Theorem get_feed_most_recent :
  forall (db : DB) (events : list FeedRow),
    get_feed db events ->
    exists left_out,
      Permutation (feed_join db) (events ++ left_out) /\
      (forall e d, In e events -> In d left_out ->
         String.ltb (f_created_at (fr_event e)) (f_created_at (fr_event d))
         = false) /\
      ((List.length events < 20)%nat -> left_out = []).
Proof.
  intros db events (sorted & Hsorted & ->).
  exists (skipn 20 sorted).
  apply (limit_keeps_largest feed_below (fun _ => True)); trivial.
  - intros a b c _ _ _. apply string_not_below_trans.
  - apply Forall_forall. trivial.
Qed.

Lemma get_dashboard_ok_inv user_id db d :
  get_dashboard user_id db (Ok d) ->
  exists u gs ss,
    d = mkDashboard u gs (limit 5 ss) /\
    user_by_id user_id db = Some u /\
    order_by_desc goal_below
      (filter (fun g => g_user_id g =? user_id) (goals db)) gs /\
    order_by_desc sacrifice_below
      (filter (fun s => s_user_id s =? user_id) (sacrifices db)) ss.
Proof.
  intros H. inversion H as [|u gs ss Hu Hg Hs]; subst.
  exists u, gs, ss. repeat split; trivial; apply Hg || apply Hs.
Qed.

(** The dashboard shows the most recent sacrifices of the account: those
    shown and those left out are all its sacrifices, none left out is
    newer than one shown, and none is left out when fewer than 5 are
    shown. *)
Theorem get_dashboard_most_recent_sacrifices :
  forall (db : DB) (user_id : Z) (d : Dashboard),
    get_dashboard user_id db (Ok d) ->
    exists left_out,
      Permutation (filter (fun s => s_user_id s =? user_id) (sacrifices db))
                  (d_sacrifices d ++ left_out) /\
      (forall s o, In s (d_sacrifices d) -> In o left_out ->
         String.ltb (s_created_at s) (s_created_at o) = false) /\
      ((List.length (d_sacrifices d) < 5)%nat -> left_out = []).
Proof.
  intros db user_id d H.
  destruct (get_dashboard_ok_inv _ _ _ H) as (u & gs & ss & -> & _ & _ & Hs).
  cbn [d_sacrifices]. exists (skipn 5 ss).
  apply (limit_keeps_largest sacrifice_below (fun _ => True)); trivial.
  - intros a b c _ _ _. apply string_not_below_trans.
  - apply Forall_forall. trivial.
Qed.

Lemma to_real_valid f : real_valid (to_real f) = true.
Proof.
  unfold to_real. destruct (PrimFloat.is_nan f) eqn:Hn; [reflexivity|].
  destruct (0 =? f)%float; cbn; [reflexivity | now rewrite Hn].
Qed.

Lemma real_add_valid a b : real_valid (real_add a b) = true.
Proof. destruct a, b; cbn; trivial. apply to_real_valid. Qed.

Lemma handle_totals_valid clk req db :
  totals_valid db -> totals_valid (snd (handle clk req db)).
Proof.
  unfold totals_valid. intros H.
  destruct req as [info | goal uid | sacrifice uid]; unfold handle.
  - rewrite google_callback_eq.
    destruct (user_by_sub (ui_sub info) db); [exact H|].
    destruct (ui_email info); [|exact H].
    destruct (existsb _ (users db)); [exact H|].
    cbn [snd users]. apply Forall_app. split; [exact H|].
    now repeat constructor.
  - rewrite create_goal_eq.
    destruct (to_real (gc_target_amount goal)); exact H.
  - rewrite log_sacrifice_eq.
    assert (Forall (fun u => real_valid (u_total_saved u) = true)
                   (credit_users (sc_amount sacrifice) uid (users db))) as Hc.
    { unfold credit_users. apply Forall_map.
      eapply Forall_impl; [|exact H]. intros u Hu.
      destruct (u_id u =? uid); [apply real_add_valid | exact Hu]. }
    destruct (sacrifice_by_title uid (sc_title sacrifice) db);
      [|destruct (to_real (sc_amount sacrifice))]; trivial.
Qed.

(** No request stores a NaN as total saved: in a table of accounts whose
    totals are numbers or [NULL], they still are after any sequence of
    requests (a sum that is not a number is stored as [NULL]). *)
Theorem serve_totals_valid :
  forall (reqs : list (Clock * Request)) (db : DB),
    totals_valid db -> totals_valid (serve reqs db).
Proof.
  induction reqs as [|[clk req] reqs IH]; intros db H; [exact H|].
  cbn [serve]. apply IH. now apply handle_totals_valid.
Qed.

(** The leaderboard lists the top savers.  The accounts listed and the
    accounts left out are all the accounts; no account left out has saved
    more than an account listed; and when fewer than 10 accounts are
    listed none is left out. *)
Theorem get_leaderboard_top_savers :
  forall (db : DB) (rows : list LeaderboardRow),
    totals_valid db ->
    get_leaderboard db rows ->
    exists listed left_out,
      rows = map leaderboard_row listed /\
      Permutation (users db) (listed ++ left_out) /\
      (forall k d, In k listed -> In d left_out ->
         real_ltb (u_total_saved k) (u_total_saved d) = false) /\
      ((List.length rows < 10)%nat -> left_out = []).
Proof.
  intros db rows Hvalid (sorted & Hsorted & ->).
  exists (limit 10 sorted), (skipn 10 sorted).
  split; [reflexivity|]. rewrite length_map.
  apply (limit_keeps_largest user_below
           (fun u => real_valid (u_total_saved u) = true)); trivial.
  intros a b c. apply real_not_below_trans.
Qed.

(** ** A new event shows up first *)

Lemma feed_join_has_event db ev u :
  In ev (feed_events db) -> In u (users db) -> u_id u = f_user_id ev ->
  In (mkFeedRow ev (u_name u) (u_avatar_url u)) (feed_join db).
Proof.
  intros Hev Hu Hid. unfold feed_join. apply in_flat_map.
  exists ev. split; [exact Hev|]. apply in_map_iff. exists u.
  split; [reflexivity|]. apply filter_In. split; [exact Hu|].
  now apply Z.eqb_eq.
Qed.

Lemma newest_event_first db old ev :
  feed_events db = (old ++ [ev])%list ->
  (exists u, In u (users db) /\ u_id u = f_user_id ev) ->
  (forall e, In e old -> String.ltb (f_created_at e) (f_created_at ev) = true) ->
  forall events, get_feed db events ->
    exists first rest, events = first :: rest /\ fr_event first = ev.
Proof.
  intros Hfeed (u & Hu & Hid) Hnew events (sorted & [Hperm Hsorted] & ->).
  assert (In (mkFeedRow ev (u_name u) (u_avatar_url u)) sorted) as Hx.
  { apply (Permutation_in _ Hperm). apply feed_join_has_event; trivial.
    rewrite Hfeed. apply in_or_app. right. now left. }
  destruct sorted as [|h t]; [destruct Hx|].
  exists h, (limit 19 t). split; [reflexivity|].
  assert (In (fr_event h) (feed_events db)) as Hh.
  { apply feed_join_in. apply (Permutation_in _ (Permutation_sym Hperm)).
    now left. }
  rewrite Hfeed in Hh. apply in_app_or in Hh.
  destruct Hh as [Hold | [Heq | []]]; [|now symmetry].
  exfalso. specialize (Hnew _ Hold).
  destruct Hx as [-> | Hx]; [cbn in Hnew; now rewrite string_ltb_irrefl in Hnew|].
  pose proof (Sorted_desc_all feed_below (fun _ => True)
                (fun a b c _ _ _ => string_not_below_trans _ _ _)
                h t I (proj2 (Forall_forall _ _) (fun _ _ => I)) Hsorted) as Hall.
  rewrite Forall_forall in Hall. specialize (Hall _ Hx).
  unfold desc, feed_below in Hall. cbn in Hall. congruence.
Qed.

Lemma user_by_id_in user_id db u :
  user_by_id user_id db = Some u -> In u (users db) /\ u_id u = user_id.
Proof.
  unfold user_by_id. intros H. apply find_some in H.
  destruct H as [Hin Hid]. split; [exact Hin | now apply Z.eqb_eq].
Qed.

(** A new event is visible at once, on top of the feed.  When an account
    that exists creates a goal or logs a sacrifice at a clock value later
    than every event in the feed, the first entry [get_feed] returns
    afterwards is the event this request appended. *)
Theorem new_event_heads_the_feed :
  forall (clk : Clock) (req : Request) (db : DB) (user_id : Z) (u : User)
         (events : list FeedRow),
    requester req = Some user_id ->
    fst (handle clk req db) = true ->
    user_by_id user_id db = Some u ->
    (forall e, In e (feed_events db) ->
               String.ltb (f_created_at e) (current_timestamp clk) = true) ->
    get_feed (snd (handle clk req db)) events ->
    exists first rest,
      events = first :: rest /\
      feed_events (snd (handle clk req db)) =
        (feed_events db ++ [fr_event first])%list /\
      f_user_id (fr_event first) = user_id /\
      f_created_at (fr_event first) = current_timestamp clk.
Proof.
  intros clk req db user_id u events Hreq Hok Hu Hnew Hfeed.
  apply user_by_id_in in Hu. destruct Hu as [Hu Hid].
  assert (exists ev,
            feed_events (snd (handle clk req db)) = (feed_events db ++ [ev])%list /\
            f_user_id ev = user_id /\
            f_created_at ev = current_timestamp clk /\
            exists u', In u' (users (snd (handle clk req db))) /\
                       u_id u' = user_id) as (ev & Hev & Hown & Hat & Hu').
  { destruct req as [info | goal uid | sacrifice uid]; [discriminate| |];
      injection Hreq as ->; unfold handle in *.
    - rewrite create_goal_eq in *.
      destruct (to_real (gc_target_amount goal)); [|discriminate].
      eexists. split; [reflexivity|]. repeat split. now exists u.
    - rewrite log_sacrifice_eq in *.
      destruct (sacrifice_by_title user_id (sc_title sacrifice) db);
        [|destruct (to_real (sc_amount sacrifice)); [|discriminate]];
        (eexists; split; [reflexivity|]; repeat split;
         exists (credit (sc_amount sacrifice) u);
         split; [|exact Hid];
         cbn [snd users]; apply in_map_iff; exists u;
         split; [now rewrite Hid, Z.eqb_refl | exact Hu]). }
  destruct (newest_event_first _ _ ev Hev) with (events := events)
    as (first & rest & -> & Hfirst); trivial.
  - destruct Hu' as (u' & Hin & Hid'). exists u'. split; [exact Hin | congruence].
  - intros e He. rewrite Hat. now apply Hnew.
  - exists first, rest. rewrite Hfirst. repeat split; trivial.
Qed.

(** ** Start-up: [init_db] *)

Lemma bind_ok {A B} (m : Tx A) (k : A -> Tx B) c a c' :
  m c = Ok (a, c') -> bind m k c = k a c'.
Proof. unfold bind. now intros ->. Qed.

(** A loop whose body succeeds on every element and only writes to tables
    other than [users] succeeds and leaves [users] and the disk alone. *)
Lemma for_each_keeps_users {A} (body : nat -> A -> Tx unit) (P : A -> Prop) :
  (forall i x c, P x -> exists c',
      body i x c = Ok (tt, c') /\ disk c' = disk c /\
      users (view c') = users (view c)) ->
  forall l i c, Forall P l -> exists c',
      for_each body i l c = Ok (tt, c') /\ disk c' = disk c /\
      users (view c') = users (view c).
Proof.
  intros Hbody. induction l as [|x l IH]; intros i c Hl; cbn [for_each].
  - exists c. now repeat split.
  - inversion Hl as [|? ? Hx Hl']; subst.
    destruct (Hbody i x c Hx) as (c1 & H1 & Hd1 & Hu1).
    destruct (IH (S i) c1 Hl') as (c2 & H2 & Hd2 & Hu2).
    exists c2. rewrite (bind_ok _ _ _ _ _ H1).
    split; [exact H2|]. split; congruence.
Qed.

Lemma insert_dummy_goal_ok clk i row c :
  to_real (snd (fst (fst row))) <> None ->
  exists c',
    insert_dummy_goal clk i row c = Ok (tt, c') /\ disk c' = disk c /\
    users (view c') = users (view c).
Proof.
  destruct row as [[[[uid title] target] current] category]. cbn.
  destruct (to_real target); [|congruence].
  intros _. eexists. repeat split.
Qed.

Lemma insert_dummy_sacrifice_ok clk i row c :
  to_real (snd (fst (fst row))) <> None ->
  exists c',
    insert_dummy_sacrifice clk i row c = Ok (tt, c') /\ disk c' = disk c /\
    users (view c') = users (view c).
Proof.
  destruct row as [[[[uid title] amount] days] date]. cbn.
  destruct (to_real amount); [|congruence].
  intros _. eexists. repeat split.
Qed.

Lemma seed_rows_ok clk db :
  exists db', get_db (seed_rows clk) db = (Ok tt, db') /\ users db' = users db.
Proof.
  unfold seed_rows, get_db.
  set (c0 := mkConn db db).
  rewrite (bind_ok _ _ c0 (dummy_user_ids db) c0 eq_refl).
  destruct (for_each_keeps_users (insert_dummy_goal clk) _
              (insert_dummy_goal_ok clk) (dummy_goals (dummy_user_ids db))
              0%nat c0) as (c1 & H1 & Hd1 & Hu1).
  { repeat constructor; vm_compute; discriminate. }
  rewrite (bind_ok _ _ _ _ _ H1).
  destruct (for_each_keeps_users (insert_dummy_sacrifice clk) _
              (insert_dummy_sacrifice_ok clk)
              (dummy_sacrifices clk (dummy_user_ids db)) 0%nat c1)
    as (c2 & H2 & Hd2 & Hu2).
  { repeat constructor; vm_compute; discriminate. }
  rewrite (bind_ok _ _ _ _ _ H2).
  rewrite (bind_ok _ _ c2 (goals (view c2)) c2 eq_refl).
  destruct (for_each_keeps_users (insert_goal_event clk) (fun _ => True)
              (fun i x c _ => ex_intro _ _ (conj eq_refl (conj eq_refl eq_refl)))
              (goals (view c2)) 0%nat c2) as (c3 & H3 & Hd3 & Hu3).
  { apply Forall_forall. trivial. }
  rewrite (bind_ok _ _ _ _ _ H3).
  rewrite (bind_ok _ _ c3 (sacrifices (view c3)) c3 eq_refl).
  destruct (for_each_keeps_users (insert_sacrifice_event clk) (fun _ => True)
              (fun i x c _ => ex_intro _ _ (conj eq_refl (conj eq_refl eq_refl)))
              (sacrifices (view c3)) 0%nat c3) as (c4 & H4 & Hd4 & Hu4).
  { apply Forall_forall. trivial. }
  rewrite (bind_ok _ _ _ _ _ H4).
  unfold commit. eexists. split; [reflexivity|]. cbn [disk].
  rewrite Hu4, Hu3, Hu2, Hu1. reflexivity.
Qed.

Lemma seed_users_ok clk gs ss fs :
  get_db (seed_users clk) (mkDB [] gs ss fs) =
  (Ok tt, mkDB (users (snd (get_db (seed_users clk) empty_db))) gs ss fs).
Proof. reflexivity. Qed.

Lemma dummy_user_ids_after_seed clk gs ss fs :
  dummy_user_ids (snd (get_db (seed_users clk) (mkDB [] gs ss fs))) = [1; 2; 3].
Proof. rewrite seed_users_ok. reflexivity. Qed.

(** [init_db] seeds once.  It always succeeds.  A database that has an
    account is left exactly as it is.  On a database without accounts the
    three demo accounts are created; and in both cases running [init_db]
    again, at any later start, changes nothing: demo data is never added
    twice. *)
Theorem init_db_seeds_once :
  forall (clk clk' : SeedClock) (db : DB),
    exists db',
      init_db clk db = (Ok tt, db') /\
      (users db <> [] -> db' = db) /\
      (users db = [] ->
         map u_email (users db') =
           ["dummy1@example.com"; "dummy2@example.com"; "dummy3@example.com"]) /\
      init_db clk' db' = (Ok tt, db').
Proof.
  intros clk clk' [us gs ss fs]. destruct us as [|u us].
  - unfold init_db at 1. cbn [users]. unfold create_dummy_data.
    rewrite seed_users_ok.
    destruct (seed_rows_ok clk
                (mkDB (users (snd (get_db (seed_users clk) empty_db))) gs ss fs))
      as (db' & Hrows & Husers).
    exists db'. split; [exact Hrows|]. split; [intros H; now contradiction H|].
    split; [intros _; now rewrite Husers|].
    unfold init_db. now rewrite Husers.
  - exists (mkDB (u :: us) gs ss fs). repeat split. discriminate.
Qed.

Ltac distinct := vm_compute; repeat constructor; cbn [In]; intuition congruence.

Ltac pick_from l :=
  lazymatch l with
  | ?x :: ?rest =>
      first [ exists x; split;
              [ vm_compute; tauto
              | repeat split; (reflexivity || (vm_compute; discriminate)) ]
            | pick_from rest ]
  end.

Ltac pick_row :=
  lazymatch goal with
  | |- exists x, In x ?l /\ _ =>
      let l' := eval vm_compute in l in pick_from l'
  end.

Lemma init_db_empty_consistent clk :
  exists db0,
    init_db clk empty_db = (Ok tt, db0) /\ consistent db0.
Proof.
  exists (snd (init_db clk empty_db)).
  split; [vm_compute; reflexivity|].
  split; [|split; [|split; [|split]]].
  - repeat split; distinct.
  - distinct.
  - split; distinct.
  - unfold feed_refers.
    let fs := eval vm_compute in (feed_events (snd (init_db clk empty_db))) in
    change (Forall (event_refers (snd (init_db clk empty_db))) fs).
    repeat (apply Forall_cons || apply Forall_nil);
      (split; [reflexivity|]; pick_row).
  - unfold totals_valid. vm_compute. repeat constructor.
Qed.

Lemma handle_consistent clk req db :
  consistent db -> consistent (snd (handle clk req db)).
Proof.
  intros (Hids & Htitles & Haccounts & Hfeed & Htotals).
  split; [now apply handle_ids_unique|].
  split; [now apply handle_titles_unique|].
  split; [now apply handle_accounts_unique|].
  split; [now apply handle_feed_refers | now apply handle_totals_valid].
Qed.

Lemma serve_consistent reqs : forall db,
  consistent db -> consistent (serve reqs db).
Proof.
  induction reqs as [|[clk req] reqs IH]; intros db H; [exact H|].
  cbn [serve]. apply IH. now apply handle_consistent.
Qed.

(** Every database the application reaches from a new file is consistent.
    After [init_db] on a new file and any sequence of logins, goal
    creations and sacrifice logs: primary keys are pairwise distinct in
    every table, no account has two sacrifice rows of one title, no two
    accounts share a Google subject or an email, every feed event names
    an existing goal or sacrifice with the event's title and owner, and no
    total saved is a NaN. *)
Theorem reachable_databases_consistent :
  forall (clk : SeedClock) (reqs : list (Clock * Request)),
    exists db0,
      init_db clk empty_db = (Ok tt, db0) /\
      consistent (serve reqs db0).
Proof.
  intros clk reqs. destruct (init_db_empty_consistent clk) as (db0 & Hinit & H).
  exists db0. split; [exact Hinit|]. now apply serve_consistent.
Qed.

(** ** Requests of an account that does not exist *)

Lemma credit_users_absent amount user_id db :
  user_by_id user_id db = None ->
  credit_users amount user_id (users db) = users db.
Proof.
  unfold user_by_id, credit_users. intros Hnone.
  rewrite <- (map_id (users db)) at 2. apply map_ext_in.
  intros u Hu. now rewrite (find_none _ _ Hnone u Hu).
Qed.

(** Nothing checks that the caller has an account.  A log of a [user_id]
    without a row in [users] whose amount is a number succeeds all the
    same: a sacrifice row owned by that id is stored, nobody is credited
    (the table of accounts is unchanged), the feed never shows an event
    of that id, and the dashboard of that id keeps failing. *)
Theorem log_sacrifice_unknown_account_credits_nobody :
  forall (clk : Clock) (sacrifice : SacrificeCreate) (user_id : Z) (db : DB),
    user_by_id user_id db = None ->
    PrimFloat.is_nan (sc_amount sacrifice) = false ->
    exists r db',
      log_sacrifice clk sacrifice user_id db = (Ok r, db') /\
      users db' = users db /\
      (exists s, In s (sacrifices db') /\ s_user_id s = user_id /\
                 s_title s = sc_title sacrifice) /\
      (forall events, get_feed db' events ->
         forall e, In e events -> f_user_id (fr_event e) <> user_id) /\
      get_dashboard user_id db' (Err TypeError).
Proof.
  intros clk sacrifice user_id db Hnone Hnum.
  assert (forall db', users db' = users db ->
            (forall events, get_feed db' events ->
               forall e, In e events -> f_user_id (fr_event e) <> user_id) /\
            get_dashboard user_id db' (Err TypeError)) as Hrest.
  { intros db' Husers. split.
    - intros events (sorted & [Hperm _] & ->) e He Hid.
      apply limit_incl in He.
      apply (Permutation_in _ (Permutation_sym Hperm)) in He.
      apply feed_join_in in He. destruct He as (_ & u & Hu & Huid & _).
      rewrite Husers in Hu. unfold user_by_id in Hnone.
      pose proof (find_none _ _ Hnone u Hu) as Hfalse. cbn in Hfalse.
      apply Z.eqb_neq in Hfalse. congruence.
    - constructor. unfold user_by_id in *. now rewrite Husers. }
  rewrite log_sacrifice_eq.
  destruct (sacrifice_by_title user_id (sc_title sacrifice) db) as [row|] eqn:Hrow.
  - apply sacrifice_by_title_some in Hrow. destruct Hrow as (Hin & Hown & Htitle).
    do 2 eexists. split; [reflexivity|]. cbn [users sacrifices].
    split; [now apply credit_users_absent|]. split.
    + exists (set_days (s_days_count row + 1) (now_isoformat clk) row).
      split; [|now split].
      apply in_map_iff. exists row. now rewrite Z.eqb_refl.
    + apply Hrest. cbn. now apply credit_users_absent.
  - destruct (to_real (sc_amount sacrifice)) as [amount|] eqn:Ha.
    + do 2 eexists. split; [reflexivity|]. cbn [users sacrifices].
      split; [now apply credit_users_absent|]. split.
      * eexists. split; [apply in_or_app; right; now left | now split].
      * apply Hrest. cbn. now apply credit_users_absent.
    + apply to_real_None in Ha. congruence.
Qed.

(** ** The properties above on the sample data *)

Lemma fresh_db_consistent : consistent fresh_db.
Proof.
  split; [repeat split; distinct|]. split; [distinct|].
  split; [split; distinct|]. split; [constructor|].
  unfold totals_valid. vm_compute. repeat constructor.
Qed.

Lemma serve_ids_unique_witness : ids_unique coffee_db.
Proof.
  apply (serve_ids_unique coffee_requests fresh_db).
  repeat split; distinct.
Defined.

Lemma serve_titles_unique_witness : titles_unique coffee_db.
Proof.
  apply (serve_titles_unique coffee_requests fresh_db). distinct.
Defined.

Lemma serve_accounts_unique_witness : accounts_unique coffee_db.
Proof.
  apply (serve_accounts_unique coffee_requests fresh_db). split; distinct.
Defined.

Lemma serve_feed_refers_witness : feed_refers coffee_db.
Proof.
  apply (serve_feed_refers coffee_requests fresh_db).
  - repeat split; distinct.
  - constructor.
Defined.

Lemma serve_totals_valid_witness : totals_valid coffee_db.
Proof.
  apply (serve_totals_valid coffee_requests fresh_db).
  unfold totals_valid. vm_compute. repeat constructor.
Defined.

Lemma serve_streak_follows_days_count_witness :
  exists u',
    user_by_id 1 coffee_db = Some u' /\
    u_current_streak u' - days_total 1 coffee_db = 0 - 0.
Proof.
  apply (serve_streak_follows_days_count coffee_requests fresh_db 1 alice).
  - repeat split; distinct.
  - reflexivity.
Defined.

Lemma first_login_creates_account_witness :
  let clk := at_time "2024-05-02 07:08:00" in
  exists u,
    get_me 3 (snd (google_callback clk carol fresh_db)) =
      (Ok u, snd (google_callback clk carol fresh_db)) /\
    users (snd (google_callback clk carol fresh_db)) = [alice; bob; u] /\
    goals (snd (google_callback clk carol fresh_db)) = [] /\
    sacrifices (snd (google_callback clk carol fresh_db)) = [] /\
    feed_events (snd (google_callback clk carol fresh_db)) = [] /\
    u_id u = 3 /\
    ~ In 3 [1; 2] /\
    u_google_sub u = "sub-carol" /\
    Some (u_email u) = Some "carol@example.com" /\
    u_name u = Some "Carol" /\
    u_avatar_url u = None /\
    u_total_saved u = Some 0%float /\
    u_current_streak u = 0.
Proof.
  cbv zeta.
  apply (first_login_creates_account (at_time "2024-05-02 07:08:00") carol
           fresh_db); reflexivity.
Defined.

Lemma login_again_same_account_witness :
  let db' := snd (google_callback (at_time "2024-05-02 07:08:00") carol fresh_db) in
  google_callback (at_time "2024-06-01 09:00:00") carol_renamed db' = (Ok 3, db').
Proof.
  cbv zeta.
  apply (login_again_same_account (at_time "2024-05-02 07:08:00") _ carol
           carol_renamed fresh_db); reflexivity.
Defined.

Lemma first_login_without_usable_email_fails_witness :
  google_callback (at_time "2024-05-02 07:08:00") alice_twin fresh_db =
    (Err IntegrityError, fresh_db) /\
  google_callback (at_time "2024-05-02 07:08:00")
                  (mkUserInfo "sub-dave" None (Some "Dave") None) fresh_db =
    (Err IntegrityError, fresh_db).
Proof.
  split.
  - apply first_login_without_usable_email_fails; [reflexivity|].
    right. exists alice. split; [now left | reflexivity].
  - apply first_login_without_usable_email_fails; [reflexivity|].
    now left.
Defined.

Lemma get_feed_most_recent_witness :
  exists left_out,
    Permutation (feed_join same_second_db)
                (feed_join same_second_db ++ left_out) /\
    (forall e d, In e (feed_join same_second_db) -> In d left_out ->
       String.ltb (f_created_at (fr_event e)) (f_created_at (fr_event d))
       = false) /\
    ((List.length (feed_join same_second_db) < 20)%nat -> left_out = []).
Proof.
  apply (get_feed_most_recent same_second_db (feed_join same_second_db)).
  exists (feed_join same_second_db). split; [|reflexivity].
  split; [reflexivity|]. repeat constructor.
Defined.

Lemma get_dashboard_most_recent_sacrifices_witness :
  let d := mkDashboard
             (mkUser 1 "alice@example.com" (Some "Alice") None "sub-alice"
                     (Some 9.5%float) 2 None "2024-05-01 08:00:00")
             (filter (fun g => g_user_id g =? 1) (goals coffee_db))
             (filter (fun s => s_user_id s =? 1) (sacrifices coffee_db)) in
  exists left_out,
    Permutation (filter (fun s => s_user_id s =? 1) (sacrifices coffee_db))
                (d_sacrifices d ++ left_out) /\
    (forall s o, In s (d_sacrifices d) -> In o left_out ->
       String.ltb (s_created_at s) (s_created_at o) = false) /\
    ((List.length (d_sacrifices d) < 5)%nat -> left_out = []).
Proof.
  cbv zeta.
  apply (get_dashboard_most_recent_sacrifices coffee_db 1).
  apply (dashboard_row 1 coffee_db _
           (filter (fun g => g_user_id g =? 1) (goals coffee_db))
           (filter (fun s => s_user_id s =? 1) (sacrifices coffee_db)));
    [reflexivity | |]; (split; [reflexivity | repeat constructor]).
Defined.

Lemma get_leaderboard_top_savers_witness :
  exists listed left_out,
    [leaderboard_row bob; leaderboard_row alice] = map leaderboard_row listed /\
    Permutation [alice; bob] (listed ++ left_out) /\
    (forall k d, In k listed -> In d left_out ->
       real_ltb (u_total_saved k) (u_total_saved d) = false) /\
    ((2 < 10)%nat -> left_out = []).
Proof.
  apply (get_leaderboard_top_savers fresh_db
           [leaderboard_row bob; leaderboard_row alice]).
  - unfold totals_valid. vm_compute. repeat constructor.
  - exists [bob; alice]. split; [|reflexivity].
    split; [apply perm_swap | repeat constructor].
Defined.

Lemma new_event_heads_the_feed_witness :
  let clk := at_time "2024-05-04 12:00:00" in
  let db' := snd (handle clk (LogSacrifice packed_lunch 1) coffee_db) in
  exists first rest,
    limit 20 (sort_desc feed_below (feed_join db')) = first :: rest /\
    feed_events db' = (feed_events coffee_db ++ [fr_event first])%list /\
    f_user_id (fr_event first) = 1 /\
    f_created_at (fr_event first) = "2024-05-04 12:00:00".
Proof.
  cbv zeta.
  apply (new_event_heads_the_feed (at_time "2024-05-04 12:00:00")
           (LogSacrifice packed_lunch 1) coffee_db 1
           (mkUser 1 "alice@example.com" (Some "Alice") None "sub-alice"
                   (Some 9.5%float) 2 None "2024-05-01 08:00:00")).
  - reflexivity.
  - reflexivity.
  - reflexivity.
  - vm_compute. intuition (subst; reflexivity).
  - eexists. split; [|reflexivity].
    apply sort_desc_ok. intros a b. apply string_ltb_asym.
Defined.

Lemma log_sacrifice_unknown_account_credits_nobody_witness :
  let clk := at_time "2024-05-04 12:00:00" in
  exists r db',
    log_sacrifice clk packed_lunch 99 fresh_db = (Ok r, db') /\
    users db' = [alice; bob] /\
    (exists s, In s (sacrifices db') /\ s_user_id s = 99 /\
               s_title s = "Packed Lunch") /\
    (forall events, get_feed db' events ->
       forall e, In e events -> f_user_id (fr_event e) <> 99) /\
    get_dashboard 99 db' (Err TypeError).
Proof.
  cbv zeta.
  apply (log_sacrifice_unknown_account_credits_nobody
           (at_time "2024-05-04 12:00:00") packed_lunch 99 fresh_db);
    reflexivity.
Defined.

(** ** The dashboard after a write *)

(** A goal that was created is on the dashboard.  After a successful
    [create_goal], every dashboard of the caller lists the new goal, under
    the id the call returned, with the request's title and category and
    progress 0, next to every goal the caller had before. *)
Theorem created_goal_is_on_the_dashboard :
  forall (clk : Clock) (goal : GoalCreate) (user_id : Z) (db db' : DB)
         (r : GoalCreated) (d : Dashboard),
    create_goal clk goal user_id db = (Ok r, db') ->
    get_dashboard user_id db' (Ok d) ->
    (exists g, In g (d_goals d) /\
               g_id g = gr_id r /\
               g_user_id g = user_id /\
               g_title g = gc_title goal /\
               g_category g = gc_category goal /\
               g_current_amount g = Some 0%float) /\
    (forall g, In g (goals db) -> g_user_id g = user_id -> In g (d_goals d)).
Proof.
  intros clk goal user_id db db' r d Hcall Hdash.
  rewrite create_goal_eq in Hcall.
  destruct (to_real (gc_target_amount goal)) as [target|]; [|discriminate].
  injection Hcall as <- <-.
  destruct (get_dashboard_ok_inv _ _ _ Hdash) as (u & gs & ss & -> & _ & [Hperm _] & _).
  cbn [d_goals goals] in *. split.
  - exists (goal_row clk goal user_id target db). split; [|repeat split].
    apply (Permutation_in _ Hperm). apply filter_In.
    split; [apply in_or_app; right; now left | apply Z.eqb_refl].
  - intros g Hg Hown. apply (Permutation_in _ Hperm). apply filter_In.
    split; [apply in_or_app; now left | now apply Z.eqb_eq].
Qed.

Lemma Sorted_map_inv {A B} (f : A -> B) (R : A -> A -> Prop) (S : B -> B -> Prop) l :
  (forall a b, S (f a) (f b) -> R a b) ->
  Sorted S (map f l) -> Sorted R l.
Proof.
  intros Hf. induction l as [|x l IH]; cbn; intros H; constructor;
    inversion H as [|? ? Hs Hhd]; subst; [now apply IH|].
  destruct l; cbn in *; constructor. inversion Hhd; subst. now apply Hf.
Qed.

Lemma filter_map_same {A} (p : A -> bool) (f : A -> A) l :
  (forall x, p (f x) = p x) -> filter p (map f l) = map f (filter p l).
Proof.
  intros Hp. induction l as [|x l IH]; cbn; [reflexivity|].
  rewrite Hp. destruct (p x); cbn; now rewrite IH.
Qed.

(** The dashboard orders sacrifices by creation time, and a repeated log
    does not touch it.  When the account already has a record of the
    title, the dashboards after the log are the dashboards before it, up
    to the repetition count and last-done date of that record: the same
    goals, and the same sacrifices in the same order.  Repeating a habit
    does not move it up, or back into the five that are shown. *)
Theorem repeated_log_keeps_dashboard_order :
  forall (clk : Clock) (sacrifice : SacrificeCreate) (user_id : Z) (db : DB)
         (row : Sacrifice) (d' : Dashboard),
    sacrifice_by_title user_id (sc_title sacrifice) db = Some row ->
    get_dashboard user_id (snd (log_sacrifice clk sacrifice user_id db)) (Ok d') ->
    exists d,
      get_dashboard user_id db (Ok d) /\
      d_goals d' = d_goals d /\
      map sacrifice_key (d_sacrifices d') = map sacrifice_key (d_sacrifices d).
Proof.
  intros clk sacrifice user_id db row d' Hrow Hdash.
  rewrite log_sacrifice_eq, Hrow in Hdash. cbn [snd] in Hdash.
  destruct (get_dashboard_ok_inv _ _ _ Hdash)
    as (u' & gs & ss' & -> & Hu' & Hg & [Hperm Hsorted]).
  cbn [goals sacrifices] in *.
  set (bump := fun s => if s_id s =? s_id row
                        then set_days (s_days_count row + 1) (now_isoformat clk) s
                        else s) in *.
  assert (forall s, sacrifice_key (bump s) = sacrifice_key s) as Hkey
    by (intros s; unfold bump; destruct (s_id s =? s_id row); reflexivity).
  assert (filter (fun s => s_user_id s =? user_id) (map bump (sacrifices db)) =
          map bump (filter (fun s => s_user_id s =? user_id) (sacrifices db)))
    as Hfilter.
  { apply filter_map_same. intros s. unfold bump.
    destruct (s_id s =? s_id row); reflexivity. }
  rewrite Hfilter in Hperm.
  destruct (Permutation_map_inv _ _ (Permutation_sym Hperm))
    as (ss & -> & Hperm0).
  destruct (user_by_id user_id db) as [u|] eqn:Hu.
  2:{ unfold user_by_id in Hu', Hu. cbn [users] in Hu'.
      pose proof (user_by_id_credit (sc_amount sacrifice) user_id user_id
                    (users db) (goals db) (sacrifices db) (feed_events db)) as Hc.
      unfold user_by_id in Hc. cbn [users] in Hc. rewrite Hu in Hc.
      cbn in Hc. congruence. }
  exists (mkDashboard u gs (limit 5 ss)). split; [|split].
  - apply dashboard_row; trivial. split; [exact Hperm0|].
    apply (Sorted_map_inv bump _ (desc sacrifice_below)); [|exact Hsorted].
    intros a b. unfold desc, sacrifice_below.
    pose proof (Hkey a) as Ha. pose proof (Hkey b) as Hb.
    unfold sacrifice_key in Ha, Hb. injection Ha as _ _ _ _ Ha.
    injection Hb as _ _ _ _ Hb. now rewrite Ha, Hb.
  - reflexivity.
  - cbn [d_sacrifices]. unfold limit. rewrite firstn_map, map_map.
    apply map_ext. exact Hkey.
Qed.

Lemma sorted_dashboard user_id db u :
  user_by_id user_id db = Some u ->
  get_dashboard user_id db
    (Ok (mkDashboard u
           (sort_desc goal_below
              (filter (fun g => g_user_id g =? user_id) (goals db)))
           (limit 5 (sort_desc sacrifice_below
              (filter (fun s => s_user_id s =? user_id) (sacrifices db)))))).
Proof.
  intros Hu. apply dashboard_row; [exact Hu | |];
    apply sort_desc_ok; intros a b; apply string_ltb_asym.
Qed.

Lemma created_goal_is_on_the_dashboard_witness :
  let clk := at_time "2024-05-04 12:00:00" in
  let trip := mkGoalCreate "Weekend Trip" 400%float "Travel" in
  let db' := snd (create_goal clk trip 1 coffee_db) in
  let d := mkDashboard
             (mkUser 1 "alice@example.com" (Some "Alice") None "sub-alice"
                     (Some 9.5%float) 2 None "2024-05-01 08:00:00")
             (sort_desc goal_below
                (filter (fun g => g_user_id g =? 1) (goals db')))
             (limit 5 (sort_desc sacrifice_below
                (filter (fun s => s_user_id s =? 1) (sacrifices db')))) in
  (exists g, In g (d_goals d) /\
             g_id g = 2 /\
             g_user_id g = 1 /\
             g_title g = "Weekend Trip" /\
             g_category g = "Travel" /\
             g_current_amount g = Some 0%float) /\
  (forall g, In g (goals coffee_db) -> g_user_id g = 1 -> In g (d_goals d)).
Proof.
  cbv zeta.
  apply (created_goal_is_on_the_dashboard (at_time "2024-05-04 12:00:00")
           (mkGoalCreate "Weekend Trip" 400%float "Travel") 1 coffee_db
           (snd (create_goal (at_time "2024-05-04 12:00:00")
                   (mkGoalCreate "Weekend Trip" 400%float "Travel") 1 coffee_db))
           (mkGoalCreated 2 "Weekend Trip")).
  - reflexivity.
  - apply sorted_dashboard. reflexivity.
Defined.

Lemma repeated_log_keeps_dashboard_order_witness :
  let clk := at_time "2024-05-04 07:00:00" in
  let db' := snd (log_sacrifice clk coffee_again 1 coffee_db) in
  let d' := mkDashboard
              (mkUser 1 "alice@example.com" (Some "Alice") None "sub-alice"
                      (Some 16.5%float) 3 None "2024-05-01 08:00:00")
              (sort_desc goal_below
                 (filter (fun g => g_user_id g =? 1) (goals db')))
              (limit 5 (sort_desc sacrifice_below
                 (filter (fun s => s_user_id s =? 1) (sacrifices db')))) in
  exists d,
    get_dashboard 1 coffee_db (Ok d) /\
    d_goals d' = d_goals d /\
    map sacrifice_key (d_sacrifices d') = map sacrifice_key (d_sacrifices d).
Proof.
  cbv zeta.
  apply (repeated_log_keeps_dashboard_order (at_time "2024-05-04 07:00:00")
           coffee_again 1 coffee_db
           (mkSacrifice 1 1 "Skipped Coffee" 4.5%float 2
                        (Some "2024-05-03 07:00:00") "2024-05-02 07:00:00")).
  - reflexivity.
  - apply sorted_dashboard. reflexivity.
Defined.

(** ** The repetition count counts the logs *)

Lemma find_map_same {A} (p : A -> bool) (f : A -> A) l :
  (forall x, p (f x) = p x) -> find p (map f l) = option_map f (find p l).
Proof.
  intros Hp. induction l as [|x l IH]; cbn; [reflexivity|].
  rewrite Hp. destruct (p x); [reflexivity | exact IH].
Qed.

Lemma after_logs_add start a b :
  after_logs (after_logs start a) b = after_logs start (a + b).
Proof.
  destruct a as [|a], b as [|b]; cbn [after_logs Nat.add]; trivial.
  - now rewrite Nat.add_0_r.
  - f_equal. lia.
Qed.

Lemma handle_days_count clk req db user_id title :
  NoDup (map s_id (sacrifices db)) ->
  days_count_of user_id title (snd (handle clk req db)) =
  after_logs (days_count_of user_id title db)
             (title_logs user_id title [(clk, req)] db).
Proof.
  intros Hnd. unfold days_count_of. cbn [title_logs].
  destruct req as [info | goal uid | sacrifice uid]; unfold handle.
  - rewrite google_callback_eq.
    destruct (user_by_sub (ui_sub info) db); [reflexivity|].
    destruct (ui_email info); [|reflexivity].
    destruct (existsb _ (users db)); reflexivity.
  - rewrite create_goal_eq.
    destruct (to_real (gc_target_amount goal)); reflexivity.
  - rewrite log_sacrifice_eq.
    destruct (sacrifice_by_title uid (sc_title sacrifice) db) as [row|] eqn:Hrow.
    + cbn [succeeded andb snd].
      unfold sacrifice_by_title at 1. cbn [sacrifices].
      rewrite find_map_same
        by (intros s; destruct (s_id s =? s_id row); reflexivity).
      fold (sacrifice_by_title user_id title db).
      destruct ((uid =? user_id) && (sc_title sacrifice =? title)%string) eqn:Hsame.
      * apply andb_prop in Hsame. destruct Hsame as [Hu Ht].
        apply Z.eqb_eq in Hu. apply String.eqb_eq in Ht. subst uid title.
        rewrite Hrow. cbn. rewrite Z.eqb_refl. cbn. f_equal; lia.
      * cbn [after_logs].
        destruct (sacrifice_by_title user_id title db) as [mine|] eqn:Hmine;
          [|reflexivity].
        cbn. destruct (s_id mine =? s_id row) eqn:Hid; [|reflexivity].
        exfalso. apply Z.eqb_eq in Hid.
        pose proof (sacrifice_by_title_some _ _ _ _ Hrow) as (Hin & Hown & Htitle).
        pose proof (sacrifice_by_title_some _ _ _ _ Hmine) as (Hin' & Hown' & Htitle').
        rewrite (NoDup_map_eq s_id _ mine row Hnd Hin' Hin Hid) in *.
        assert (uid = user_id) as Hu by congruence.
        assert (sc_title sacrifice = title) as Ht by congruence.
        rewrite Hu, Ht, Z.eqb_refl, String.eqb_refl in Hsame.
        discriminate.
    + destruct (to_real (sc_amount sacrifice)) as [amount|];
        cbn [succeeded andb snd]; [|reflexivity].
      unfold sacrifice_by_title at 1. cbn [sacrifices].
      destruct ((uid =? user_id) && (sc_title sacrifice =? title)%string) eqn:Hsame.
      * apply andb_prop in Hsame. destruct Hsame as [Hu Ht].
        apply Z.eqb_eq in Hu. apply String.eqb_eq in Ht. subst uid title.
        unfold sacrifice_by_title in Hrow |- *.
        rewrite (find_app_none _ _ _ Hrow), Hrow. cbn.
        now rewrite Z.eqb_refl, String.eqb_refl.
      * cbn [after_logs]. unfold sacrifice_by_title.
        destruct (find _ (sacrifices db)) as [mine|] eqn:Hmine.
        -- now rewrite (find_app_some _ _ _ _ Hmine).
        -- rewrite (find_app_none _ _ _ Hmine). cbn. now rewrite Hsame.
Qed.

Lemma title_logs_cons user_id title clk req reqs db :
  title_logs user_id title ((clk, req) :: reqs) db =
  (title_logs user_id title [(clk, req)] db
   + title_logs user_id title reqs (snd (handle clk req db)))%nat.
Proof.
  cbn [title_logs]. destruct (handle clk req db) as [ok db']. cbn [snd].
  destruct req as [info | goal uid | sacrifice uid]; trivial.
  destruct (ok && (uid =? user_id) && (sc_title sacrifice =? title)%string);
    reflexivity.
Qed.

(** The repetition count of a title counts its logs.  With distinct
    primary keys, after any sequence of requests the record an account
    has for a title carries the count it had before plus the number of
    successful logs of that title by that account in the sequence; when
    there was no record, it exists afterwards exactly if there was such a
    log, and its count is their number.  Logs of other titles and other
    accounts, goals and logins do not change it. *)
Theorem serve_days_count_counts_logs :
  forall (reqs : list (Clock * Request)) (db : DB) (user_id : Z) (title : string),
    ids_unique db ->
    days_count_of user_id title (serve reqs db) =
    after_logs (days_count_of user_id title db)
               (title_logs user_id title reqs db).
Proof.
  induction reqs as [|[clk req] reqs IH]; intros db user_id title Hids;
    [reflexivity|].
  cbn [serve]. rewrite IH by now apply handle_ids_unique.
  rewrite handle_days_count by apply Hids.
  now rewrite after_logs_add, <- title_logs_cons.
Qed.

Lemma serve_days_count_counts_logs_witness :
  days_count_of 1 "Skipped Coffee" coffee_db = Some 2 /\
  days_count_of 2 "No Takeout" coffee_db = Some 1 /\
  days_count_of 2 "Skipped Coffee" coffee_db = None.
Proof.
  unfold coffee_db. split; [|split].
  - rewrite (serve_days_count_counts_logs coffee_requests fresh_db 1
               "Skipped Coffee"); [reflexivity | repeat split; distinct].
  - rewrite (serve_days_count_counts_logs coffee_requests fresh_db 2
               "No Takeout"); [reflexivity | repeat split; distinct].
  - rewrite (serve_days_count_counts_logs coffee_requests fresh_db 2
               "Skipped Coffee"); [reflexivity | repeat split; distinct].
Defined.

(** ** C8: the leaderboard *)

Lemma user_ranked_before_asym a b :
  user_ranked_before a b -> user_ranked_before b a -> False.
Proof.
  unfold user_ranked_before, ranked_before. cbn.
  intros [H1 [H2|H2]] [H3 [H4|H4]]; try congruence. lia.
Qed.

(** A list has one ordering that is sorted by an asymmetric relation. *)
Lemma StronglySorted_unique {A} (R : A -> A -> Prop) l1 l2 :
  (forall a b, R a b -> R b a -> False) ->
  Permutation l1 l2 -> StronglySorted R l1 -> StronglySorted R l2 -> l1 = l2.
Proof.
  intros Hasym. revert l2.
  induction l1 as [|x l1 IH]; intros l2 Hp H1 H2.
  - now apply Permutation_nil in Hp.
  - destruct l2 as [|y l2].
    { apply Permutation_sym, Permutation_nil in Hp. discriminate. }
    apply StronglySorted_inv in H1, H2.
    destruct H1 as [H1 F1], H2 as [H2 F2].
    assert (x = y) as ->.
    { assert (In x (y :: l2)) as Hx
        by (eapply Permutation_in; [exact Hp | now left]).
      assert (In y (x :: l1)) as Hy
        by (eapply Permutation_in; [apply Permutation_sym; exact Hp | now left]).
      destruct Hx as [->|Hx]; [reflexivity|].
      destruct Hy as [->|Hy]; [reflexivity|].
      rewrite Forall_forall in F1, F2. exfalso.
      apply (Hasym x y); [now apply F1 | now apply F2]. }
    f_equal. apply IH; trivial. now apply Permutation_cons_inv in Hp.
Qed.

Lemma StronglySorted_firstn {A} (R : A -> A -> Prop) n l :
  StronglySorted R l -> StronglySorted R (firstn n l).
Proof.
  intros H. revert n. induction H as [|x l Hs IH Hx]; intros [|n]; cbn;
    try constructor; [apply IH|].
  rewrite Forall_forall in *. intros y Hy. apply Hx.
  rewrite <- (firstn_skipn n l). apply in_or_app. now left.
Qed.

Lemma StronglySorted_map {A B} (f : A -> B) (R : B -> B -> Prop) l :
  StronglySorted (fun a b => R (f a) (f b)) l -> StronglySorted R (map f l).
Proof.
  induction 1 as [|x l Hs IH Hx]; cbn; constructor; [exact IH|].
  now apply Forall_map.
Qed.

Lemma StronglySorted_snoc {A} (R : A -> A -> Prop) l x :
  StronglySorted R l -> Forall (fun y => R y x) l ->
  StronglySorted R (l ++ [x]).
Proof.
  induction 1 as [|y l Hs IH Hy]; cbn; intros Hx.
  - repeat constructor.
  - inversion Hx as [|? ? Hyx Hlx]; subst.
    constructor; [now apply IH|].
    apply Forall_app. split; [exact Hy | now repeat constructor].
Qed.

(** The sorter puts a row delivered earlier (one of a smaller [id]) before
    the rows of the same total that are already sorted. *)
Lemma insert_desc_ranked r l :
  real_valid (u_total_saved r) = true ->
  Forall (fun u => real_valid (u_total_saved u) = true) l ->
  Forall (fun u => u_id r < u_id u) l ->
  StronglySorted user_ranked_before l ->
  StronglySorted user_ranked_before (insert_desc user_below r l).
Proof.
  intros Hr Hv Hid Hs.
  induction Hs as [|y l Hs IH Hy]; cbn [insert_desc]; [repeat constructor|].
  inversion Hv as [|? ? Hvy Hvl]; subst.
  inversion Hid as [|? ? Hidy Hidl]; subst.
  destruct (user_below r y) eqn:E.
  - constructor; [now apply IH|].
    apply (Permutation_Forall (insert_desc_perm user_below r l)).
    constructor; [|exact Hy].
    split; [apply real_ltb_asym; exact E | left; exact E].
  - constructor; [now constructor|].
    constructor; [split; [exact E | right; exact Hidy]|].
    rewrite Forall_forall in Hy, Hvl, Hidl |- *. intros z Hz. split.
    + apply (real_not_below_trans (u_total_saved r) (u_total_saved y)
                                  (u_total_saved z));
        [exact Hr | exact Hvy | now apply Hvl | exact E | apply (Hy z Hz)].
    + right. now apply Hidl.
Qed.

Lemma sort_desc_ranked rows :
  Forall (fun u => real_valid (u_total_saved u) = true) rows ->
  StronglySorted Z.lt (map u_id rows) ->
  StronglySorted user_ranked_before (sort_desc user_below rows).
Proof.
  induction rows as [|r rows IH]; intros Hv Hs; [constructor|].
  cbn [sort_desc fold_right]. fold (sort_desc user_below rows).
  inversion Hv as [|? ? Hr Hrows]; subst.
  cbn [map] in Hs. apply StronglySorted_inv in Hs. destruct Hs as [Hs Hlt].
  destruct (sort_desc_ok user_below
              (fun a b => real_ltb_asym (u_total_saved a) (u_total_saved b))
              rows) as [Hperm _].
  apply insert_desc_ranked; trivial.
  - now apply (Permutation_Forall Hperm).
  - apply (Permutation_Forall Hperm). apply Forall_forall. intros x Hx.
    rewrite Forall_forall in Hlt. apply Hlt. now apply in_map.
  - now apply IH.
Qed.

(** Every request keeps [users] in rowid order: a new account gets the
    largest [id] and goes last, a credit leaves the [id]s alone. *)
Lemma handle_ids_ascending clk req db :
  ids_ascending db -> ids_ascending (snd (handle clk req db)).
Proof.
  unfold ids_ascending. intros H.
  destruct req as [info | goal uid | sacrifice uid]; unfold handle.
  - rewrite google_callback_eq.
    destruct (user_by_sub (ui_sub info) db); [exact H|].
    destruct (ui_email info); [|exact H].
    destruct (existsb _ (users db)); [exact H|].
    cbn [snd users]. rewrite map_app. cbn [map user_row u_id].
    apply StronglySorted_snoc; [exact H|].
    apply Forall_forall. intros x Hx. now apply next_rowid_above.
  - rewrite create_goal_eq.
    destruct (to_real (gc_target_amount goal)); exact H.
  - rewrite log_sacrifice_eq.
    destruct (sacrifice_by_title uid (sc_title sacrifice) db);
      [|destruct (to_real (sc_amount sacrifice))]; cbn [snd users];
      rewrite ?credit_users_ids; exact H.
Qed.

Lemma serve_ids_ascending reqs db :
  ids_ascending db -> ids_ascending (serve reqs db).
Proof.
  revert db. induction reqs as [|[clk req] reqs IH]; intros db H; [exact H|].
  cbn [serve]. apply IH. now apply handle_ids_ascending.
Qed.

(** The databases the application reaches meet the two conditions of the
    theorem below: after the start-up and any sequence of requests no
    total saved is a NaN and [users] lies in rowid order. *)
Lemma reachable_leaderboard_conditions clk reqs :
  totals_valid (serve reqs (snd (init_db clk empty_db))) /\
  ids_ascending (serve reqs (snd (init_db clk empty_db))).
Proof.
  split.
  - apply serve_totals_valid. unfold totals_valid. vm_compute.
    repeat constructor.
  - apply serve_ids_ascending. unfold ids_ascending. vm_compute.
    repeat (constructor; [|repeat constructor]). constructor.
Qed.

(** C8.  In every state in which no total saved is a NaN and [users] lies
    in rowid order (every state the application reaches),
    [GET /api/leaderboard] returns at most 10 accounts (10, or all of
    them when there are fewer), in non-increasing order of total saved,
    and accounts with equal totals in the order of their [id]s, the order
    in which the accounts were created.  The state determines the output:
    it is the first 10 rows of the one ordering of [users] by total saved
    descending, then [id] ascending.  It is among the lists the text of
    the query allows. *)
Theorem get_leaderboard_rows_top10_ties_by_id :
  forall (db : DB),
    totals_valid db ->
    ids_ascending db ->
    get_leaderboard db (get_leaderboard_rows db) /\
    (List.length (get_leaderboard_rows db) <= 10)%nat /\
    List.length (get_leaderboard_rows db) = Nat.min 10 (List.length (users db)) /\
    Sorted not_poorer (get_leaderboard_rows db) /\
    StronglySorted ranked_before (get_leaderboard_rows db) /\
    (forall sorted,
        Permutation (users db) sorted ->
        StronglySorted user_ranked_before sorted ->
        get_leaderboard_rows db = map leaderboard_row (limit 10 sorted)).
Proof.
  intros db Hv Hids.
  pose proof (sort_desc_ok user_below
                (fun a b => real_ltb_asym (u_total_saved a) (u_total_saved b))
                (users db)) as [Hperm Hsorted].
  pose proof (sort_desc_ranked (users db) Hv Hids) as Hranked.
  unfold get_leaderboard_rows.
  split; [exists (sort_desc user_below (users db)); now repeat split|].
  rewrite length_map. unfold limit.
  split; [apply firstn_le_length|].
  split; [rewrite length_firstn; now rewrite <- (Permutation_length Hperm)|].
  split.
  { apply Sorted_map with (R := desc user_below);
      [intros a b H; exact H | now apply Sorted_firstn]. }
  split.
  { apply StronglySorted_map. now apply StronglySorted_firstn. }
  intros sorted Hp Hs. do 2 f_equal.
  apply (StronglySorted_unique user_ranked_before);
    [apply user_ranked_before_asym | | exact Hranked | exact Hs].
  now rewrite <- Hperm.
Qed.

Lemma get_leaderboard_rows_top10_ties_by_id_witness :
  get_leaderboard_rows tied_db =
    [leaderboard_row mia; leaderboard_row zoe; leaderboard_row adam;
     leaderboard_row alice] /\
  StronglySorted ranked_before
    [leaderboard_row mia; leaderboard_row zoe; leaderboard_row adam;
     leaderboard_row alice] /\
  get_leaderboard_rows fresh_db = [leaderboard_row alice; leaderboard_row bob] /\
  StronglySorted ranked_before [leaderboard_row alice; leaderboard_row bob].
Proof.
  assert (totals_valid tied_db) as Hv1 by (vm_compute; repeat constructor).
  assert (ids_ascending tied_db) as Hi1
    by (unfold ids_ascending; cbn; repeat constructor).
  assert (totals_valid fresh_db) as Hv2 by (vm_compute; repeat constructor).
  assert (ids_ascending fresh_db) as Hi2
    by (unfold ids_ascending; cbn; repeat constructor).
  split; [reflexivity|]. split.
  - exact (proj1 (proj2 (proj2 (proj2 (proj2
             (get_leaderboard_rows_top10_ties_by_id tied_db Hv1 Hi1)))))).
  - split; [reflexivity|].
    exact (proj1 (proj2 (proj2 (proj2 (proj2
             (get_leaderboard_rows_top10_ties_by_id fresh_db Hv2 Hi2)))))).
Defined.
